(** * PromptTool: the front-end controller [PromptManager] of src/index.ts

    A shallow embedding of the TypeScript class [PromptManager] and of the
    event handlers it installs, together with the properties of the
    specification that concern it.

    - JavaScript strings are Rocq [string]s: a character stands for one code
      unit.  [String.prototype.toLowerCase] and [String.prototype.trim]
      belong to the language runtime, not to the repository, and are taken
      as an interface ([StringRuntime]); the runtime [ascii_runtime] is
      their behaviour on ASCII text and is the one the examples run on.
    - The Tauri backend reached through [invoke] is not part of the
      front-end: it is an arbitrary [Backend] over a world type [W], which
      answers every command by resolving or rejecting.
    - The asynchronous methods are embedded sequentially in a state and
      exception monad [M] over the controller's fields, the DOM elements it
      holds, the backend world and the trace of outward effects. *)

From Stdlib Require Import String Ascii List Bool Arith.
From stdpp Require Import base list strings gmap.
Import ListNotations.

Local Open Scope string_scope.
Local Open Scope list_scope.

(** ** JavaScript strings *)

Module JS.

(** The two runtime methods whose tables the front-end relies on; of
    [trim] the proofs use only that it leaves the empty string empty. *)
Class StringRuntime := {
  toLowerCase : string -> string;
  trim : string -> string;
  trim_empty : trim "" = ""
}.

(** [s.includes(searchString)]: [searchString] occurs in [s] at some
    position. *)
Fixpoint includes (s searchString : string) : bool :=
  String.prefix searchString s
  || match s with
     | EmptyString => false
     | String _ s' => includes s' searchString
     end.

(** ASCII letters and white space, for the concrete runtime. *)
Definition is_upper (c : ascii) : bool :=
  ((65 <=? nat_of_ascii c) && (nat_of_ascii c <=? 90))%nat.

Definition lower_char (c : ascii) : ascii :=
  if is_upper c then ascii_of_nat (nat_of_ascii c + 32) else c.

Fixpoint lower_string (s : string) : string :=
  match s with
  | EmptyString => EmptyString
  | String c s' => String (lower_char c) (lower_string s')
  end.

Definition is_space (c : ascii) : bool :=
  let n := nat_of_ascii c in
  (((9 <=? n) && (n <=? 13)) || (n =? 32))%nat.

Fixpoint trim_start (s : string) : string :=
  match s with
  | EmptyString => EmptyString
  | String c s' => if is_space c then trim_start s' else s
  end.

(** Drops the white space that ends [s]. *)
Fixpoint trim_end (s : string) : string :=
  match s with
  | EmptyString => EmptyString
  | String c s' =>
      match trim_end s' with
      | EmptyString => if is_space c then EmptyString else String c EmptyString
      | t => String c t
      end
  end.

Definition ascii_runtime : StringRuntime :=
  {| toLowerCase := lower_string;
     trim := fun s => trim_end (trim_start s);
     trim_empty := eq_refl |}.

End JS.

Import JS.

(** ** Data model (the interfaces of index.ts) *)

Record Prompt := {
  name : string;
  content : string;
  parameters : list string
}.

Record Settings := {
  promptFilePath : string;
  hotkey : string
}.

#[global] Instance Prompt_eq_dec : EqDecision Prompt.
Proof. solve_decision. Defined.

#[global] Instance Settings_eq_dec : EqDecision Settings.
Proof. solve_decision. Defined.

(** The predicate of [filterPrompts]'s callback, on the lowercased query. *)
Definition matches_searchTerm {rt : StringRuntime} (searchTerm : string) (prompt : Prompt) : bool :=
  includes (toLowerCase (name prompt)) searchTerm
  || includes (toLowerCase (content prompt)) searchTerm.

(** ** The host: Tauri commands, clipboard, console *)

(** What a rejected promise carries.  The named errors are the ones of the
    specification; anything else is [OtherError]. *)
Inductive Rejection :=
| InvalidPath
| InvalidBinding
| ConflictWithReserved
| IoError
| ParseError
| OtherError (msg : string).

Inductive Result (A : Type) :=
| Resolved (a : A)
| Rejected (e : Rejection).

Arguments Resolved {A} a.
Arguments Rejected {A} e.

(** The commands the front-end passes to [invoke], with their arguments. *)
Inductive Command :=
| get_config
| set_prompt_file_path (path : string)
| set_hotkey (newHotkey : string)
| get_prompts (filePath : string)
| open_prompt_file_dialog
| minimize_window.

(** The type argument of [invoke<T>] at each call site. *)
Definition Reply (c : Command) : Type :=
  match c with
  | get_config => Settings
  | set_prompt_file_path _ => unit
  | set_hotkey _ => unit
  | get_prompts _ => list Prompt
  | open_prompt_file_dialog => string
  | minimize_window => unit
  end.

(** Everything outside the page, over its own state [W]. *)
Record Host (W : Type) := {
  backend : forall c : Command, W -> Result (Reply c) * W;
  clipboard_writeText : string -> W -> Result unit * W
}.

Arguments backend {W} _ c _.
Arguments clipboard_writeText {W} _ _ _.

(** The outward effects of a run, in the order they are issued. *)
Inductive Effect :=
| Invoke (c : Command)
| ClipboardWriteText (text : string)
| ConsoleError (message : option string) (error : Rejection).

(** ** The controller's state *)

(** A rendered [<li>]: its text and the prompt its click listener closes
    over ([None]: no listener, the "nothing found" line). *)
Record ListItem := {
  textContent : string;
  onclick : option Prompt
}.

(** A [DOMTokenList]: an ordered set of tokens. *)
Definition ClassList := list string.

Definition classList_contains (token : string) (cl : ClassList) : bool :=
  existsb (String.eqb token) cl.

Definition classList_add (token : string) (cl : ClassList) : ClassList :=
  if classList_contains token cl then cl else cl ++ [token].

Definition classList_remove (token : string) (cl : ClassList) : ClassList :=
  List.filter (fun t => negb (String.eqb token t)) cl.

(** The private fields of [PromptManager]; [elements] is flattened to the
    properties of the elements that the methods read or write. *)
Record PromptManager := {
  prompts : list Prompt;
  filteredPrompts : list Prompt;
  settings : Settings;
  searchBar_value : string;
  promptList_classList : ClassList;
  promptList_children : list ListItem;
  settingsModal_classList : ClassList;
  promptFilePathInput_value : string;
  hotkeyConfigInput_value : string
}.

Definition with_prompts (v : list Prompt) (pm : PromptManager) : PromptManager :=
  {| prompts := v; filteredPrompts := filteredPrompts pm; settings := settings pm;
     searchBar_value := searchBar_value pm;
     promptList_classList := promptList_classList pm;
     promptList_children := promptList_children pm;
     settingsModal_classList := settingsModal_classList pm;
     promptFilePathInput_value := promptFilePathInput_value pm;
     hotkeyConfigInput_value := hotkeyConfigInput_value pm |}.

Definition with_filteredPrompts (v : list Prompt) (pm : PromptManager) : PromptManager :=
  {| prompts := prompts pm; filteredPrompts := v; settings := settings pm;
     searchBar_value := searchBar_value pm;
     promptList_classList := promptList_classList pm;
     promptList_children := promptList_children pm;
     settingsModal_classList := settingsModal_classList pm;
     promptFilePathInput_value := promptFilePathInput_value pm;
     hotkeyConfigInput_value := hotkeyConfigInput_value pm |}.

Definition with_settings (v : Settings) (pm : PromptManager) : PromptManager :=
  {| prompts := prompts pm; filteredPrompts := filteredPrompts pm; settings := v;
     searchBar_value := searchBar_value pm;
     promptList_classList := promptList_classList pm;
     promptList_children := promptList_children pm;
     settingsModal_classList := settingsModal_classList pm;
     promptFilePathInput_value := promptFilePathInput_value pm;
     hotkeyConfigInput_value := hotkeyConfigInput_value pm |}.

Definition with_searchBar_value (v : string) (pm : PromptManager) : PromptManager :=
  {| prompts := prompts pm; filteredPrompts := filteredPrompts pm; settings := settings pm;
     searchBar_value := v;
     promptList_classList := promptList_classList pm;
     promptList_children := promptList_children pm;
     settingsModal_classList := settingsModal_classList pm;
     promptFilePathInput_value := promptFilePathInput_value pm;
     hotkeyConfigInput_value := hotkeyConfigInput_value pm |}.

Definition with_promptList_classList (v : ClassList) (pm : PromptManager) : PromptManager :=
  {| prompts := prompts pm; filteredPrompts := filteredPrompts pm; settings := settings pm;
     searchBar_value := searchBar_value pm;
     promptList_classList := v;
     promptList_children := promptList_children pm;
     settingsModal_classList := settingsModal_classList pm;
     promptFilePathInput_value := promptFilePathInput_value pm;
     hotkeyConfigInput_value := hotkeyConfigInput_value pm |}.

Definition with_promptList_children (v : list ListItem) (pm : PromptManager) : PromptManager :=
  {| prompts := prompts pm; filteredPrompts := filteredPrompts pm; settings := settings pm;
     searchBar_value := searchBar_value pm;
     promptList_classList := promptList_classList pm;
     promptList_children := v;
     settingsModal_classList := settingsModal_classList pm;
     promptFilePathInput_value := promptFilePathInput_value pm;
     hotkeyConfigInput_value := hotkeyConfigInput_value pm |}.

Definition with_settingsModal_classList (v : ClassList) (pm : PromptManager) : PromptManager :=
  {| prompts := prompts pm; filteredPrompts := filteredPrompts pm; settings := settings pm;
     searchBar_value := searchBar_value pm;
     promptList_classList := promptList_classList pm;
     promptList_children := promptList_children pm;
     settingsModal_classList := v;
     promptFilePathInput_value := promptFilePathInput_value pm;
     hotkeyConfigInput_value := hotkeyConfigInput_value pm |}.

Definition with_promptFilePathInput_value (v : string) (pm : PromptManager) : PromptManager :=
  {| prompts := prompts pm; filteredPrompts := filteredPrompts pm; settings := settings pm;
     searchBar_value := searchBar_value pm;
     promptList_classList := promptList_classList pm;
     promptList_children := promptList_children pm;
     settingsModal_classList := settingsModal_classList pm;
     promptFilePathInput_value := v;
     hotkeyConfigInput_value := hotkeyConfigInput_value pm |}.

Definition with_hotkeyConfigInput_value (v : string) (pm : PromptManager) : PromptManager :=
  {| prompts := prompts pm; filteredPrompts := filteredPrompts pm; settings := settings pm;
     searchBar_value := searchBar_value pm;
     promptList_classList := promptList_classList pm;
     promptList_children := promptList_children pm;
     settingsModal_classList := settingsModal_classList pm;
     promptFilePathInput_value := promptFilePathInput_value pm;
     hotkeyConfigInput_value := v |}.

(** The field initialisers of the class; the element properties are
    whatever the document holds when the instance is created. *)
Definition new_PromptManager (searchBar : string) (promptList settingsModal : ClassList)
    (items : list ListItem) (pathInput hotkeyInput : string) : PromptManager :=
  {| prompts := []; filteredPrompts := [];
     settings := {| promptFilePath := ""; hotkey := "" |};
     searchBar_value := searchBar;
     promptList_classList := promptList;
     promptList_children := items;
     settingsModal_classList := settingsModal;
     promptFilePathInput_value := pathInput;
     hotkeyConfigInput_value := hotkeyInput |}.

(** ** The monad of the methods *)

Record Sys (W : Type) := {
  ui : PromptManager;
  world : W;
  log : list Effect
}.

Arguments ui {W} _.
Arguments world {W} _.
Arguments log {W} _.

Inductive Completion (A : Type) :=
| Normal (a : A)
| Throw (e : Rejection).

Arguments Normal {A} a.
Arguments Throw {A} e.

Definition M (W A : Type) : Type := Sys W -> Completion A * Sys W.

Definition ret {W A} (a : A) : M W A := fun s => (Normal a, s).

Definition bind {W A B} (m : M W A) (k : A -> M W B) : M W B :=
  fun s =>
    match m s with
    | (Normal a, s') => k a s'
    | (Throw e, s') => (Throw e, s')
    end.

Definition throw {W A} (e : Rejection) : M W A := fun s => (Throw e, s).

(** [try { body } catch (error) { handler }] *)
Definition try_catch {W A} (body : M W A) (handler : Rejection -> M W A) : M W A :=
  fun s =>
    match body s with
    | (Normal a, s') => (Normal a, s')
    | (Throw e, s') => handler e s'
    end.

Definition get {W A} (f : PromptManager -> A) : M W A :=
  fun s => (Normal (f (ui s)), s).

Definition modify {W} (f : PromptManager -> PromptManager) : M W unit :=
  fun s => (Normal tt, {| ui := f (ui s); world := world s; log := log s |}).

Definition emit {W} (e : Effect) : M W unit :=
  fun s => (Normal tt, {| ui := ui s; world := world s; log := log s ++ [e] |}).

(** The methods are written with stdpp's monad notation [x ← m; k]. *)
#[global] Instance M_ret {W} : MRet (M W) := fun A => @ret W A.
#[global] Instance M_bind {W} : MBind (M W) := fun A B k m => @bind W A B m k.

Definition exec {W A} (m : M W A) (s : Sys W) : Sys W := snd (m s).
Definition outcome {W A} (m : M W A) (s : Sys W) : Completion A := fst (m s).

(** ** The class [PromptManager] *)

Section Controller.

Context {W : Type} (host : Host W) {rt : StringRuntime}.

Local Abbreviation M := (M W).

(** [await invoke(cmd, args)]: the backend answers; a rejection is thrown
    at the [await]. *)
Definition invoke (c : Command) : M (Reply c) :=
  fun s =>
    let (r, w') := backend host c (world s) in
    (match r with
     | Resolved a => Normal a
     | Rejected e => Throw e
     end,
     {| ui := ui s; world := w'; log := log s ++ [Invoke c] |}).

(** [invoke(cmd)] whose promise is dropped: the call is issued, a rejection
    goes unobserved. *)
Definition invoke_detached (c : Command) : M unit :=
  fun s =>
    let (_, w') := backend host c (world s) in
    (Normal tt, {| ui := ui s; world := w'; log := log s ++ [Invoke c] |}).

Definition console_error (message : option string) (error : Rejection) : M unit :=
  emit (ConsoleError message error).

(** [navigator.clipboard.writeText(text).catch(console.error)] *)
Definition clipboard_write (text : string) : M unit :=
  fun s =>
    let (r, w') := clipboard_writeText host text (world s) in
    let s' := {| ui := ui s; world := w'; log := log s ++ [ClipboardWriteText text] |} in
    match r with
    | Resolved _ => (Normal tt, s')
    | Rejected e => console_error None e s'
    end.

(** [this.elements.promptList.classList.add("hidden")], the hide action of
    the result list, and its counterpart. *)
Definition promptList_hide : M unit :=
  modify (fun pm => with_promptList_classList
            (classList_add "hidden" (promptList_classList pm)) pm).

Definition promptList_show : M unit :=
  modify (fun pm => with_promptList_classList
            (classList_remove "hidden" (promptList_classList pm)) pm).

Definition settingsModal_hide : M unit :=
  modify (fun pm => with_settingsModal_classList
            (classList_add "hidden" (settingsModal_classList pm)) pm).

Definition settingsModal_show : M unit :=
  modify (fun pm => with_settingsModal_classList
            (classList_remove "hidden" (settingsModal_classList pm)) pm).

(** [renderPromptList], lines 189-209; [li_click] is the listener attached
    to each item. *)
Definition li_click (prompt : Prompt) : M unit :=
  clipboard_write (content prompt);;
  modify (with_searchBar_value "");;
  promptList_hide.

Definition renderPromptList : M unit :=
  modify (with_promptList_children []);;
  shown ← get filteredPrompts;
  if (length shown =? 0)%nat then
    modify (fun pm => with_promptList_children
              (promptList_children pm
               ++ [{| textContent := "Ничего не найдено"; onclick := None |}]) pm)
  else
    modify (fun pm => with_promptList_children
              (promptList_children pm
               ++ map (fun prompt => {| textContent := name prompt;
                                        onclick := Some prompt |}) shown) pm).

(** [filterPrompts], lines 179-186. *)
Definition filterPrompts (query : string) : M unit :=
  let searchTerm := toLowerCase query in
  modify (fun pm => with_filteredPrompts
            (List.filter (matches_searchTerm searchTerm) (prompts pm)) pm);;
  renderPromptList.

(** [loadPrompts], lines 167-176. *)
Definition loadPrompts : M unit :=
  try_catch
    (filePath ← get (fun pm => promptFilePath (settings pm));
     loaded ← invoke (get_prompts filePath);
     modify (with_prompts loaded))
    (fun error =>
       console_error (Some "Ошибка загрузки промптов:") error;;
       modify (with_prompts [])).

(** [loadSettings], lines 138-148. *)
Definition loadSettings : M unit :=
  try_catch
    (config ← invoke get_config;
     modify (with_settings config);;
     modify (with_promptFilePathInput_value (promptFilePath config));;
     modify (with_hotkeyConfigInput_value (hotkey config));;
     loadPrompts)
    (fun error => console_error (Some "Ошибка загрузки настроек:") error).

(** [saveSettings], lines 151-164. *)
Definition saveSettings : M unit :=
  newPath ← get promptFilePathInput_value;
  newHotkey ← get hotkeyConfigInput_value;
  try_catch
    (invoke (set_prompt_file_path newPath);;
     invoke (set_hotkey newHotkey);;
     modify (fun pm => with_settings
               {| promptFilePath := newPath; hotkey := hotkey (settings pm) |} pm);;
     modify (fun pm => with_settings
               {| promptFilePath := promptFilePath (settings pm); hotkey := newHotkey |} pm))
    (fun error =>
       console_error (Some "Ошибка сохранения настроек:") error;;
       throw error).

(** *** The listeners of [initializeEventListeners], lines 85-135 *)

(** "input" on the search bar. *)
Definition searchBar_input : M unit :=
  query ← get (fun pm => trim (searchBar_value pm));
  if negb (String.eqb query "") then
    filterPrompts query;;
    promptList_show
  else
    promptList_hide.

Definition settingsBtn_click : M unit := settingsModal_show.

Definition closeSettingsBtn_click : M unit := settingsModal_hide.

Definition browseBtn_click : M unit :=
  try_catch
    (selected ← invoke open_prompt_file_dialog;
     if negb (String.eqb selected "") then
       modify (with_promptFilePathInput_value selected)
     else mret tt)
    (fun error => console_error (Some "Ошибка при выборе файла:") error).

Definition saveSettingsBtn_click : M unit :=
  try_catch
    (saveSettings;;
     settingsModal_hide;;
     loadPrompts)
    (fun error => console_error (Some "Ошибка при сохранении настроек:") error).

(** "click" on the modal; [target_is_modal] is [e.target === settingsModal]. *)
Definition settingsModal_click (target_is_modal : bool) : M unit :=
  if target_is_modal then settingsModal_hide else mret tt.

(** *** The document-wide click listener of the constructor, lines 52-73 *)

(** What the listener asks the document about one click.  [appContainer]
    and [settingsModal] are the two lookups: [None] when the lookup yields
    [null], [Some b] when the element is found and [b] is what its
    [contains(target)] answers. *)
Record ClickEvent := {
  appContainer : option bool;
  settingsModal : option bool;
  searchBar_is_activeElement : bool
}.

(** [el && !el.contains(target)] *)
Definition found_and_excludes_target (el : option bool) : bool :=
  match el with
  | Some contains_target => negb contains_target
  | None => false
  end.

Definition document_click (event : ClickEvent) : M unit :=
  modal_hidden ← get (fun pm => classList_contains "hidden" (settingsModal_classList pm));
  if found_and_excludes_target (appContainer event)
     && found_and_excludes_target (settingsModal event)
     && negb modal_hidden
  then mret tt
  else if found_and_excludes_target (appContainer event)
          && negb (searchBar_is_activeElement event)
  then invoke_detached minimize_window
  else mret tt.

(** A click on the [i]-th child of the prompt list runs the listener that
    [renderPromptList] attached to it, if any. *)
Definition promptList_click (i : nat) : M unit :=
  items ← get promptList_children;
  match nth_error items i with
  | Some {| onclick := Some prompt |} => li_click prompt
  | _ => mret tt
  end.

(** The user edits the search bar to [text]: the value changes and "input"
    fires. *)
Definition type_query (text : string) : M unit :=
  modify (with_searchBar_value text);;
  searchBar_input.

End Controller.

(** The prompts on screen: the children of the list unless the class
    [hidden] ([display: none !important] in the style sheet) is set. *)
Definition visible_items (pm : PromptManager) : list ListItem :=
  if classList_contains "hidden" (promptList_classList pm) then []
  else promptList_children pm.

Definition listed_prompts (items : list ListItem) : list Prompt :=
  omap onclick items.

(** What [renderPromptList] leaves in the list element, as a function of
    [filteredPrompts]. *)
Definition rendered (shown : list Prompt) : list ListItem :=
  match shown with
  | [] => [{| textContent := "Ничего не найдено"; onclick := None |}]
  | _ => map (fun prompt => {| textContent := name prompt; onclick := Some prompt |}) shown
  end.

(** What a clipboard write adds to the trace after the write itself. *)
Definition clipboard_failure (r : Result unit) : list Effect :=
  match r with
  | Resolved _ => []
  | Rejected e => [ConsoleError None e]
  end.

(** The result list that a query leaves in [filteredPrompts]. *)
Definition query_results {rt : StringRuntime} {W} (query : string) (s : Sys W) : list Prompt :=
  filteredPrompts (ui (exec (filterPrompts query) s)).

(** Whether a click made the page ask the backend to minimise the window. *)
Definition minimize_requested {W} (host : Host W) (event : ClickEvent) (s : Sys W) : bool :=
  existsb (fun e => match e with Invoke minimize_window => true | _ => false end)
          (skipn (length (log s)) (log (exec (document_click host event) s))).

(** ** The specification's search policy (§4.3), for comparison

    These follow the words of the specification, not the code. *)

Module SearchIndexSpec.

Definition is_alnum (c : ascii) : bool :=
  let n := nat_of_ascii c in
  (((48 <=? n) && (n <=? 57)) || ((65 <=? n) && (n <=? 90))
   || ((97 <=? n) && (n <=? 122)))%nat.

Definition flush (current : string) : list string :=
  if String.eqb current "" then [] else [current].

(** Terms are the maximal runs of letters and digits. *)
Fixpoint tokens_from (current : string) (s : string) : list string :=
  match s with
  | EmptyString => flush current
  | String c s' =>
      if is_alnum c then tokens_from (current ++ String c "") s'
      else flush current ++ tokens_from "" s'
  end.

Definition tokenize {rt : StringRuntime} (s : string) : list string :=
  tokens_from "" (toLowerCase s).

(** "for each Prompt, tokenize name and content into lowercase terms" *)
Definition term_set {rt : StringRuntime} (p : Prompt) : list string :=
  tokenize (name p) ++ tokenize (content p).

(** "a prompt matches if the lowercased query is a substring of the
    lowercased name OR lowercased content, OR if every tokenized query term
    appears in the prompt's term set" *)
Definition matches {rt : StringRuntime} (query : string) (p : Prompt) : bool :=
  includes (toLowerCase (name p)) (toLowerCase query)
  || includes (toLowerCase (content p)) (toLowerCase query)
  || forallb (fun term => existsb (String.eqb term) (term_set p)) (tokenize query).

(** "exact name-prefix matches first, then name-substring matches, then
    content-substring/term matches" *)
Definition rank {rt : StringRuntime} (query : string) (p : Prompt) : nat :=
  if String.prefix (toLowerCase query) (toLowerCase (name p)) then 0
  else if includes (toLowerCase (name p)) (toLowerCase query) then 1
  else 2.

Fixpoint nondecreasing (l : list nat) : bool :=
  match l with
  | a :: (b :: _) as tl => (a <=? b)%nat && nondecreasing tl
  | _ => true
  end.

Definition ranked {rt : StringRuntime} (query : string) (results : list Prompt) : Prop :=
  nondecreasing (map (rank query) results) = true.

End SearchIndexSpec.

(** ** The specification's hide condition (§4.4 (a)), for comparison

    "a click outside both the main popup and any open settings dialog while
    the search field is not focused". *)
Definition spec_hide_condition (event : ClickEvent) (pm : PromptManager) : bool :=
  let outside_popup := found_and_excludes_target (appContainer event) in
  let inside_open_dialog :=
    match settingsModal event with
    | Some contains_target =>
        contains_target && negb (classList_contains "hidden" (settingsModal_classList pm))
    | None => false
    end in
  outside_popup && negb inside_open_dialog && negb (searchBar_is_activeElement event).

(** ** The specification's ConfigManager (§4.1)

    The component that owns and validates the persisted settings is part of
    the Rust backend, which is not among the sources. *)

Module ConfigManager.

(** Modelled from the spec: the splitting of a binding at [+], part of the
    backend's parser, which is missing from the sources. *)
Fixpoint split_plus (current : string) (s : string) : list string :=
  match s with
  | EmptyString => [current]
  | String c s' =>
      if Ascii.eqb c "+"%char then current :: split_plus "" s'
      else split_plus (current ++ String c "") s'
  end.

(** Modelled from the spec: the parser of hotkey bindings of the backend,
    which is missing from the sources.  "hotkey must parse into a non-empty
    modifier+key combination": one or more modifiers and a key, joined by
    [+], none of them empty. *)
Definition parse_binding (binding : string) : option (list string) :=
  let parts := split_plus "" binding in
  if (2 <=? length parts)%nat && forallb (fun part => negb (String.eqb part "")) parts
  then Some parts
  else None.

(** Modelled from the spec: the backend operation [set_hotkey] of
    ConfigManager, which is missing from the sources.
    "setHotkey(binding) -> Ok | InvalidBinding | ConflictWithReserved: parses
    and validates the combination before persisting"; the reserved
    combinations are left open by the specification and are a parameter. *)
Definition setHotkey (reserved : list (list string)) (binding : string)
    (persisted : Settings) : Result unit * Settings :=
  match parse_binding binding with
  | None => (Rejected InvalidBinding, persisted)
  | Some combination =>
      if bool_decide (combination ∈ reserved)
      then (Rejected ConflictWithReserved, persisted)
      else (Resolved tt,
            {| promptFilePath := promptFilePath persisted; hotkey := binding |})
  end.

(** A backend over the persisted settings whose [set_hotkey] is
    [setHotkey]; the other commands are answered by [others]. *)
Definition backend_with_setHotkey (reserved : list (list string))
    (others : forall c : Command, Settings -> Result (Reply c) * Settings)
    (c : Command) : Settings -> Result (Reply c) * Settings :=
  match c as c0 return Settings -> Result (Reply c0) * Settings with
  | set_hotkey newHotkey => setHotkey reserved newHotkey
  | c0 => others c0
  end.

End ConfigManager.

(** ** Concrete data for the examples *)

Module Examples.

Definition Greeting (params : list string) : Prompt :=
  {| name := "Greeting"; content := "Hello {name}"; parameters := params |}.

Definition BugReport (params : list string) : Prompt :=
  {| name := "Bug Report"; content := "Steps to reproduce: ..."; parameters := params |}.

(** A page whose list and dialog start hidden, with [loaded] as prompts. *)
Definition page (loaded : list Prompt) : PromptManager :=
  with_prompts loaded (new_PromptManager "" ["hidden"] ["hidden"] [] "" "").

Definition start {W} (loaded : list Prompt) (w : W) : Sys W :=
  {| ui := page loaded; world := w; log := [] |}.

(** A backend in which every command is rejected with [e]. *)
Definition rejecting (e : Rejection) : Host unit :=
  {| backend := fun c w => (Rejected e, w);
     clipboard_writeText := fun _ w => (Resolved tt, w) |}.

(** A host whose state is the text the system clipboard holds; every
    backend command is rejected. *)
Definition clipboard_holder : Host string :=
  {| backend := fun c held => (Rejected IoError, held);
     clipboard_writeText := fun text _ => (Resolved tt, text) |}.

(** A backend that accepts the setters and rejects the rest. *)
Definition accepting_setters : Host unit :=
  {| backend := fun c =>
       match c as c0 return unit -> Result (Reply c0) * unit with
       | set_prompt_file_path _ => fun w => (Resolved tt, w)
       | set_hotkey _ => fun w => (Resolved tt, w)
       | _ => fun w => (Rejected IoError, w)
       end;
     clipboard_writeText := fun _ w => (Resolved tt, w) |}.

(** A backend that accepts every path and rejects every hotkey with [e]. *)
Definition rejecting_hotkeys (e : Rejection) : Host unit :=
  {| backend := fun c =>
       match c as c0 return unit -> Result (Reply c0) * unit with
       | set_prompt_file_path _ => fun w => (Resolved tt, w)
       | _ => fun w => (Rejected e, w)
       end;
     clipboard_writeText := fun _ w => (Resolved tt, w) |}.

(** A backend over persisted settings: paths are accepted and stored,
    hotkeys go through [ConfigManager.setHotkey]. *)
Definition config_others (c : Command) : Settings -> Result (Reply c) * Settings :=
  match c as c0 return Settings -> Result (Reply c0) * Settings with
  | get_config => fun cfg => (Resolved cfg, cfg)
  | set_prompt_file_path path => fun cfg =>
      (Resolved tt, {| promptFilePath := path; hotkey := hotkey cfg |})
  | set_hotkey _ => fun cfg => (Rejected InvalidBinding, cfg)
  | get_prompts _ => fun cfg => (Resolved [], cfg)
  | open_prompt_file_dialog => fun cfg => (Resolved "", cfg)
  | minimize_window => fun cfg => (Resolved tt, cfg)
  end.

Definition config_clipboard (text : string) (cfg : Settings) : Result unit * Settings :=
  (Resolved tt, cfg).

Definition config_host : Host Settings :=
  {| backend := ConfigManager.backend_with_setHotkey [] config_others;
     clipboard_writeText := config_clipboard |}.

(** The settings form as the user left it: a new path and no hotkey, while
    "Ctrl+Space" is the binding in force. *)
Definition form_without_hotkey : Sys Settings :=
  {| ui := with_hotkeyConfigInput_value ""
             (with_promptFilePathInput_value "prompts.json"
                (with_settings {| promptFilePath := "old.json"; hotkey := "Ctrl+Space" |}
                   (page [])));
     world := {| promptFilePath := "old.json"; hotkey := "Ctrl+Space" |};
     log := [] |}.

End Examples.

(** ** Themes: [initializeTheme] and [setTheme], lines 211-230 *)

(** An [HTMLSelectElement]: assigning [value] selects the first option with
    that value, and none (the value then reads as empty) when there is no
    such option. *)
Record Select := {
  select_options : list string;
  select_value : string
}.

Definition select_assign (v : string) (sel : Select) : Select :=
  {| select_options := select_options sel;
     select_value := if existsb (String.eqb v) (select_options sel) then v else "" |}.

(** The parts of the document that the theme code and the constructor
    reach besides the controller's own elements: [localStorage], the
    attributes of the root element, the element [theme-toggle] if there is
    one, and the listeners registered so far (target and event type).
    [storage_refuses key value] tells whether [setItem] throws, as it does
    when the quota is exceeded. *)
Record Document := {
  localStorage : gmap string string;
  storage_refuses : string -> string -> bool;
  root_attributes : gmap string string;
  themeToggle : option Select;
  listeners : list (string * string)
}.

(** [setTheme], lines 226-230: the attribute is set first, the theme is
    stored second. *)
Definition setTheme (theme : string) (d : Document) : Completion unit * Document :=
  let attributes' := <["data-theme" := theme]> (root_attributes d) in
  if storage_refuses d "theme" theme then
    (Throw (OtherError "QuotaExceededError"),
     {| localStorage := localStorage d; storage_refuses := storage_refuses d;
        root_attributes := attributes';
        themeToggle := themeToggle d; listeners := listeners d |})
  else
    (Normal tt,
     {| localStorage := <["theme" := theme]> (localStorage d);
        storage_refuses := storage_refuses d;
        root_attributes := attributes';
        themeToggle := themeToggle d; listeners := listeners d |}).

(** [localStorage.getItem("theme") || "dark"] *)
Definition savedTheme (d : Document) : string :=
  match localStorage d !! "theme" with
  | Some stored => if String.eqb stored "" then "dark" else stored
  | None => "dark"
  end.

(** [initializeTheme], lines 212-224. *)
Definition initializeTheme (d : Document) : Completion unit * Document :=
  let saved := savedTheme d in
  match setTheme saved d with
  | (Throw e, d') => (Throw e, d')
  | (Normal _, d') =>
      match themeToggle d' with
      | Some toggle =>
          (Normal tt,
           {| localStorage := localStorage d'; storage_refuses := storage_refuses d';
              root_attributes := root_attributes d';
              themeToggle := Some (select_assign saved toggle);
              listeners := listeners d' ++ [("theme-toggle", "change")] |})
      | None => (Normal tt, d')
      end
  end.

(** The "change" listener of the toggle: the theme becomes the value the
    select element holds. *)
Definition themeToggle_change (d : Document) : Completion unit * Document :=
  match themeToggle d with
  | Some toggle => setTheme (select_value toggle) d
  | None => (Normal tt, d)
  end.

(** The user picks [choice] in the toggle: the select takes it and "change"
    fires. *)
Definition choose_theme (choice : string) (d : Document) : Completion unit * Document :=
  themeToggle_change
    {| localStorage := localStorage d; storage_refuses := storage_refuses d;
       root_attributes := root_attributes d;
       themeToggle := select_assign choice <$> themeToggle d;
       listeners := listeners d |}.

(** ** The constructor and [getInstance], lines 24-82 *)

(** The registrations of [initializeEventListeners], in order. *)
Definition initializeEventListeners (d : Document) : Document :=
  {| localStorage := localStorage d; storage_refuses := storage_refuses d;
     root_attributes := root_attributes d; themeToggle := themeToggle d;
     listeners := listeners d
       ++ [("search-bar", "input"); ("settings-btn", "click");
           ("close-settings-btn", "click"); ("browse-btn", "click");
           ("save-settings-btn", "click"); ("settings-modal", "click")] |}.

Definition add_document_click_listener (d : Document) : Document :=
  {| localStorage := localStorage d; storage_refuses := storage_refuses d;
     root_attributes := root_attributes d; themeToggle := themeToggle d;
     listeners := listeners d ++ [("document", "click")] |}.

(** The whole page: the static field [PromptManager.instance] (set or
    not), the controller with its elements and the backend, and the rest of
    the document. *)
Record Application (W : Type) := {
  instance : bool;
  manager : Sys W;
  document : Document
}.

Arguments instance {W} _.
Arguments manager {W} _.
Arguments document {W} _.

Section Construction.

Context {W : Type} (host : Host W).

(** The field initialisers, then the body of the constructor: the
    listeners, [loadSettings().catch(console.error)], the theme, the
    document-wide click listener.  The controller's fields start from their
    initial values; its elements are the ones of the document. *)
Definition constructor (a : Application W) : Completion unit * Application W :=
  let pm := ui (manager a) in
  let fresh :=
    {| ui := new_PromptManager (searchBar_value pm) (promptList_classList pm)
               (settingsModal_classList pm) (promptList_children pm)
               (promptFilePathInput_value pm) (hotkeyConfigInput_value pm);
       world := world (manager a); log := log (manager a) |} in
  let d1 := initializeEventListeners (document a) in
  let (_, loaded) :=
    try_catch (loadSettings host) (fun error => console_error None error) fresh in
  match initializeTheme d1 with
  | (Throw e, d2) =>
      (Throw e, {| instance := instance a; manager := loaded; document := d2 |})
  | (Normal _, d2) =>
      (Normal tt, {| instance := instance a; manager := loaded;
                     document := add_document_click_listener d2 |})
  end.

(** [getInstance], lines 77-82. *)
Definition getInstance (a : Application W) : Completion unit * Application W :=
  if negb (instance a) then
    match constructor a with
    | (Normal _, a') =>
        (Normal tt, {| instance := true; manager := manager a'; document := document a' |})
    | (Throw e, a') => (Throw e, a')
    end
  else (Normal tt, a).

End Construction.

(** The registrations of a completed construction, after those present. *)
Definition construction_listeners (d : Document) : list (string * string) :=
  [("search-bar", "input"); ("settings-btn", "click");
   ("close-settings-btn", "click"); ("browse-btn", "click");
   ("save-settings-btn", "click"); ("settings-modal", "click")]
  ++ match themeToggle d with
     | Some _ => [("theme-toggle", "change")]
     | None => []
     end
  ++ [("document", "click")].

(** ** The settings component (the Svelte script) *)

Module SettingsComponent.

(** The component's [themeSelection], the class list of [document.body],
    and what it wrote with [console.error] (message and value). *)
Record Component := {
  themeSelection : string;
  body_classList : ClassList;
  console : list (string * string)
}.

Definition changeTheme (value : string) (c : Component) : Component :=
  if String.eqb value "light" || String.eqb value "dark" then
    {| themeSelection := value;
       body_classList :=
         if String.eqb value "dark" then
           classList_remove "light-theme" (classList_add "dark-theme" (body_classList c))
         else
           classList_remove "dark-theme" (classList_add "light-theme" (body_classList c));
       console := console c |}
  else
    {| themeSelection := themeSelection c;
       body_classList := body_classList c;
       console := console c ++ [("Некорректное значение темы:", value)] |}.

End SettingsComponent.

(** ** More sample data *)

Module Samples.

(** A backend that answers every command: it serves [config] and
    [loaded], accepts both setters, and its file dialog returns [picked]. *)
Definition serving (config : Settings) (loaded : list Prompt) (picked : string) : Host unit :=
  {| backend := fun c =>
       match c as c0 return unit -> Result (Reply c0) * unit with
       | get_config => fun w => (Resolved config, w)
       | set_prompt_file_path _ => fun w => (Resolved tt, w)
       | set_hotkey _ => fun w => (Resolved tt, w)
       | get_prompts _ => fun w => (Resolved loaded, w)
       | open_prompt_file_dialog => fun w => (Resolved picked, w)
       | minimize_window => fun w => (Resolved tt, w)
       end;
     clipboard_writeText := fun _ w => (Resolved tt, w) |}.

Definition ctrl_space : Settings :=
  {| promptFilePath := "prompts.json"; hotkey := "Ctrl+Space" |}.

(** A document with the theme [stored] in [localStorage] (if any), a
    store that accepts every write, and a toggle offering both themes. *)
Definition themed (stored : option string) : Document :=
  {| localStorage := match stored with
                     | Some theme => {["theme" := theme]}
                     | None => ∅
                     end;
     storage_refuses := fun _ _ => false;
     root_attributes := ∅;
     themeToggle := Some {| select_options := ["dark"; "light"]; select_value := "dark" |};
     listeners := [] |}.

(** The same document with a store that is full. *)
Definition full_store : Document :=
  {| localStorage := ∅;
     storage_refuses := fun _ _ => true;
     root_attributes := ∅;
     themeToggle := None;
     listeners := [] |}.

Definition application (d : Document) : Application unit :=
  {| instance := false; manager := Examples.start [] tt; document := d |}.

End Samples.

(** * Properties *)

(** ** Strings *)

Lemma append_String (c : ascii) (a b : string) :
  (String c a ++ b)%string = String c (a ++ b)%string.
Proof. reflexivity. Qed.

Lemma prefix_app (t s : string) :
  String.prefix t s = true <-> exists b, s = (t ++ b)%string.
Proof.
  revert s. induction t as [|c t IH]; intros s; simpl.
  - destruct s; split; eauto.
  - destruct s as [|d s]; simpl.
    + split; [discriminate | intros [b Hb]; discriminate].
    + destruct (Ascii.ascii_dec c d) as [->|Hne].
      * rewrite IH. split; intros [b Hb]; exists b;
          rewrite append_String in *; congruence.
      * split; [discriminate |].
        intros [b Hb]. rewrite append_String in Hb. congruence.
Qed.

(** [includes] is the substring test. *)
Lemma includes_spec (s t : string) :
  includes s t = true <-> exists a b, s = (a ++ t ++ b)%string.
Proof.
  induction s as [|c s IH].
  - change (includes "" t) with (String.prefix t "" || false).
    rewrite orb_false_r, prefix_app. split.
    + intros [b Hb]. exists ""%string, b. exact Hb.
    + intros [a [b Hab]]. destruct a; [eauto | discriminate].
  - change (includes (String c s) t)
      with (String.prefix t (String c s) || includes s t).
    rewrite orb_true_iff, prefix_app, IH. split.
    + intros [[b Hb] | [a [b Hab]]].
      * exists ""%string, b. exact Hb.
      * exists (String c a), b. rewrite append_String. congruence.
    + intros [a [b Hab]]. destruct a as [|d a].
      * left. eauto.
      * right. exists a, b. rewrite append_String in Hab. congruence.
Qed.

Section ControllerFacts.

Context {W : Type} (host : Host W) {rt : StringRuntime}.

Lemma renderPromptList_run (s : Sys W) :
  renderPromptList s =
  (Normal tt, {| ui := with_promptList_children (rendered (filteredPrompts (ui s))) (ui s);
                 world := world s; log := log s |}).
Proof.
  unfold renderPromptList, mbind, M_bind, bind, modify, get. simpl.
  destruct (filteredPrompts (ui s)); reflexivity.
Qed.

Lemma filterPrompts_run (query : string) (s : Sys W) :
  filterPrompts query s =
  (Normal tt,
   let found := List.filter (matches_searchTerm (toLowerCase query)) (prompts (ui s)) in
   {| ui := with_promptList_children (rendered found) (with_filteredPrompts found (ui s));
      world := world s; log := log s |}).
Proof.
  unfold filterPrompts, mbind, M_bind, bind. simpl.
  rewrite renderPromptList_run. reflexivity.
Qed.

End ControllerFacts.

(** ** Class lists *)

Lemma classList_contains_add (token : string) (cl : ClassList) :
  classList_contains token (classList_add token cl) = true.
Proof.
  unfold classList_add. destruct (classList_contains token cl) eqn:E; [exact E |].
  unfold classList_contains. rewrite existsb_app. simpl.
  rewrite String.eqb_refl. apply orb_true_iff. right. reflexivity.
Qed.

Lemma classList_add_present (token : string) (cl : ClassList) :
  classList_contains token cl = true -> classList_add token cl = cl.
Proof. unfold classList_add. intros ->. reflexivity. Qed.

Lemma classList_add_idempotent (token : string) (cl : ClassList) :
  classList_add token (classList_add token cl) = classList_add token cl.
Proof. apply classList_add_present, classList_contains_add. Qed.

Lemma classList_contains_remove (token : string) (cl : ClassList) :
  classList_contains token (classList_remove token cl) = false.
Proof.
  unfold classList_contains, classList_remove.
  induction cl as [|t cl IH]; [reflexivity |].
  cbn [List.filter]. destruct (String.eqb token t) eqn:E; cbn [negb existsb].
  - exact IH.
  - rewrite E. exact IH.
Qed.

(** ** Search: [filterPrompts] *)

Section SearchFacts.

Context {W : Type} {rt : StringRuntime}.

Lemma query_results_filter (query : string) (s : Sys W) :
  query_results query s =
  List.filter (matches_searchTerm (toLowerCase query)) (prompts (ui s)).
Proof. unfold query_results, exec. rewrite filterPrompts_run. reflexivity. Qed.

(** A query replaces the result list only: the loaded prompts stay. *)
Lemma filterPrompts_keeps_prompts (query : string) (s : Sys W) :
  prompts (ui (exec (filterPrompts query) s)) = prompts (ui s).
Proof. unfold exec. rewrite filterPrompts_run. reflexivity. Qed.

(** The rendered items carry the results, in the same order. *)
Lemma listed_rendered (shown : list Prompt) :
  listed_prompts (rendered shown) = shown.
Proof.
  unfold listed_prompts. destruct shown as [|p shown]; [reflexivity |].
  unfold rendered. generalize (p :: shown). intros l.
  induction l as [|q l IH]; [reflexivity |]. simpl. f_equal. exact IH.
Qed.

Lemma filterPrompts_children (query : string) (s : Sys W) :
  promptList_children (ui (exec (filterPrompts query) s)) =
  rendered (query_results query s).
Proof.
  rewrite query_results_filter. unfold exec. rewrite filterPrompts_run. reflexivity.
Qed.

Lemma filter_sublist {A} (f : A -> bool) (l : list A) :
  List.filter f l `sublist_of` l.
Proof.
  induction l as [|x l IH]; simpl.
  - constructor.
  - destruct (f x); [apply sublist_skip | apply sublist_cons]; exact IH.
Qed.

(** Whoever matches by substring matches the policy of the specification. *)
Lemma matches_searchTerm_policy (query : string) (p : Prompt) :
  matches_searchTerm (toLowerCase query) p = true ->
  SearchIndexSpec.matches query p = true.
Proof.
  unfold matches_searchTerm, SearchIndexSpec.matches. intros ->. reflexivity.
Qed.

(** C1 (as amended): for every loaded prompt list and every query string,
    [filterPrompts] returns exactly the prompts of the snapshot for which
    the lowercased query is a substring of the lowercased name or of the
    lowercased content.  Every result therefore belongs to the snapshot and
    satisfies the matching policy of the specification; prompts that only
    match term by term are not returned. *)
Theorem filterPrompts_exactly_substring_matches (query : string) (s : Sys W) (p : Prompt) :
  (In p (query_results query s) <->
   In p (prompts (ui s)) /\
   ((exists a b, toLowerCase (name p) = (a ++ toLowerCase query ++ b)%string) \/
    (exists a b, toLowerCase (content p) = (a ++ toLowerCase query ++ b)%string)))
  /\ (In p (query_results query s) -> SearchIndexSpec.matches query p = true).
Proof.
  rewrite query_results_filter. split.
  - rewrite filter_In. unfold matches_searchTerm.
    rewrite orb_true_iff, !includes_spec. reflexivity.
  - rewrite filter_In. intros [_ Hm]. apply matches_searchTerm_policy, Hm.
Qed.

(** C3 (as amended): the results of a query keep the order the prompts have
    in the snapshot: they are the matching prompts as a subsequence of the
    loaded list, and the list items are rendered in that same order.
    Nothing is moved forward for matching by name prefix or by name. *)
Theorem filterPrompts_keeps_snapshot_order (query : string) (s : Sys W) :
  query_results query s `sublist_of` prompts (ui s)
  /\ listed_prompts (promptList_children (ui (exec (filterPrompts query) s)))
     = query_results query s.
Proof.
  split.
  - rewrite query_results_filter. apply filter_sublist.
  - rewrite filterPrompts_children. apply listed_rendered.
Qed.

End SearchFacts.

Lemma filterPrompts_exactly_substring_matches_witness :
  SearchIndexSpec.matches (rt:=ascii_runtime) "hel" (Examples.Greeting ["name"]) = true.
Proof.
  apply (proj2 (filterPrompts_exactly_substring_matches (rt:=ascii_runtime) "hel"
                  (Examples.start [Examples.Greeting ["name"]; Examples.BugReport []] tt)
                  (Examples.Greeting ["name"]))).
  vm_compute. left. reflexivity.
Defined.

(** C1, counterexample: with the single prompt "Bug Report" loaded, the
    query "report bug" is non-empty and both of its terms are terms of the
    prompt, so the policy of the specification selects it; it is a substring
    of neither the name nor the content, and [filterPrompts] returns
    nothing. *)
Lemma filterPrompts_misses_term_matches :
  let s := Examples.start [Examples.BugReport []] tt in
  "report bug" <> ""
  /\ In (Examples.BugReport []) (prompts (ui s))
  /\ SearchIndexSpec.matches (rt:=ascii_runtime) "report bug" (Examples.BugReport []) = true
  /\ query_results (rt:=ascii_runtime) "report bug" s = []
  /\ ~ (forall p, In p (query_results (rt:=ascii_runtime) "report bug" s) <->
                  In p (prompts (ui s))
                  /\ SearchIndexSpec.matches (rt:=ascii_runtime) "report bug" p = true).
Proof.
  cbv zeta.
  assert (Hres : query_results (rt:=ascii_runtime) "report bug"
                   (Examples.start [Examples.BugReport []] tt) = [])
    by (rewrite query_results_filter; vm_compute; reflexivity).
  assert (Hm : SearchIndexSpec.matches (rt:=ascii_runtime) "report bug"
                 (Examples.BugReport []) = true) by (vm_compute; reflexivity).
  split; [discriminate |].
  split; [left; reflexivity |].
  split; [exact Hm |].
  split; [exact Hres |].
  intros Hall. rewrite Hres in Hall.
  apply (Hall (Examples.BugReport [])). split; [left; reflexivity | exact Hm].
Qed.

(** C3, counterexample: with "Bug Report" loaded before "Report Template",
    the query "report" returns them in that order, although the second is a
    name-prefix match and the first only a name-substring match. *)
Lemma filterPrompts_does_not_rank :
  let first := {| name := "Bug Report"; content := "Steps"; parameters := [] |} in
  let second := {| name := "Report Template"; content := "Summary"; parameters := [] |} in
  let s := Examples.start [first; second] tt in
  "report" <> ""
  /\ query_results (rt:=ascii_runtime) "report" s = [first; second]
  /\ SearchIndexSpec.rank (rt:=ascii_runtime) "report" first = 1
  /\ SearchIndexSpec.rank (rt:=ascii_runtime) "report" second = 0
  /\ ~ SearchIndexSpec.ranked (rt:=ascii_runtime) "report"
         (query_results (rt:=ascii_runtime) "report" s).
Proof.
  cbv zeta.
  split; [discriminate |].
  split; [rewrite query_results_filter; vm_compute; reflexivity |].
  split; [vm_compute; reflexivity |].
  split; [vm_compute; reflexivity |].
  unfold SearchIndexSpec.ranked. rewrite query_results_filter.
  vm_compute. discriminate.
Qed.

(** C8: with the prompts "Greeting" ("Hello {name}") and "Bug Report"
    ("Steps to reproduce: ...") loaded, in this order and whatever their
    parameter lists, the query "hel" returns exactly "Greeting", the query
    "report" exactly "Bug Report", and the query "xyz" nothing; typed into
    the search bar, they list the same prompts. *)
Theorem example_queries {W : Type} (s : Sys W) (params1 params2 : list string) :
  prompts (ui s) = [Examples.Greeting params1; Examples.BugReport params2] ->
  map name (query_results (rt:=ascii_runtime) "hel" s) = ["Greeting"]
  /\ map name (query_results (rt:=ascii_runtime) "report" s) = ["Bug Report"]
  /\ query_results (rt:=ascii_runtime) "xyz" s = []
  /\ listed_prompts (visible_items (ui (exec (type_query (rt:=ascii_runtime) "hel") s)))
     = [Examples.Greeting params1]
  /\ listed_prompts (visible_items (ui (exec (type_query (rt:=ascii_runtime) "report") s)))
     = [Examples.BugReport params2]
  /\ listed_prompts (visible_items (ui (exec (type_query (rt:=ascii_runtime) "xyz") s)))
     = [].
Proof.
  intros Hloaded.
  rewrite !query_results_filter, Hloaded.
  split; [reflexivity |]. split; [reflexivity |]. split; [reflexivity |].
  unfold type_query, searchBar_input, exec, mbind, M_bind, bind, modify, get.
  cbn [fst snd ui world log searchBar_value with_searchBar_value].
  change (trim (StringRuntime:=ascii_runtime) "hel") with "hel".
  change (trim (StringRuntime:=ascii_runtime) "report") with "report".
  change (trim (StringRuntime:=ascii_runtime) "xyz") with "xyz".
  cbn [String.eqb Ascii.eqb negb Bool.eqb].
  rewrite !filterPrompts_run.
  cbn [fst snd ui world log prompts with_searchBar_value with_filteredPrompts
       with_promptList_children promptList_show modify].
  rewrite Hloaded.
  unfold visible_items.
  cbn [ui promptList_classList promptList_children with_promptList_classList
       with_promptList_children with_filteredPrompts with_searchBar_value].
  rewrite !classList_contains_remove.
  split; [reflexivity |]. split; reflexivity.
Qed.

Lemma example_queries_witness :
  map name (query_results (rt:=ascii_runtime) "hel"
              (Examples.start [Examples.Greeting ["name"]; Examples.BugReport []] tt))
  = ["Greeting"].
Proof.
  apply (example_queries
           (Examples.start [Examples.Greeting ["name"]; Examples.BugReport []] tt)
           ["name"] []).
  reflexivity.
Defined.

(** ** Showing and hiding the result list *)

Section VisibilityFacts.

Context {W : Type} (host : Host W) {rt : StringRuntime}.

Lemma Sys_eta (s : Sys W) :
  {| ui := ui s; world := world s; log := log s |} = s.
Proof. destruct s. reflexivity. Qed.

Lemma with_promptList_classList_same (pm : PromptManager) :
  with_promptList_classList (promptList_classList pm) pm = pm.
Proof. destruct pm. reflexivity. Qed.

Lemma with_settingsModal_classList_same (pm : PromptManager) :
  with_settingsModal_classList (settingsModal_classList pm) pm = pm.
Proof. destruct pm. reflexivity. Qed.

Lemma promptList_hide_run (s : Sys W) :
  promptList_hide s =
  (Normal tt,
   {| ui := with_promptList_classList
              (classList_add "hidden" (promptList_classList (ui s))) (ui s);
      world := world s; log := log s |}).
Proof. reflexivity. Qed.

Lemma promptList_hide_hides (s : Sys W) :
  visible_items (ui (exec promptList_hide s)) = [].
Proof.
  unfold visible_items, exec. rewrite promptList_hide_run.
  cbn [snd ui promptList_classList with_promptList_classList].
  rewrite classList_contains_add. reflexivity.
Qed.

Lemma clipboard_write_run (text : string) (s : Sys W) :
  clipboard_write host text s =
  (Normal tt,
   {| ui := ui s;
      world := snd (clipboard_writeText host text (world s));
      log := log s ++ ClipboardWriteText text
                      :: clipboard_failure (fst (clipboard_writeText host text (world s))) |}).
Proof.
  unfold clipboard_write, console_error, emit.
  destruct (clipboard_writeText host text (world s)) as [[u|e] w']; cbn [fst snd ui world log].
  - reflexivity.
  - rewrite <- app_assoc. reflexivity.
Qed.

Lemma li_click_run (prompt : Prompt) (s : Sys W) :
  li_click host prompt s =
  (Normal tt,
   {| ui := with_promptList_classList
              (classList_add "hidden" (promptList_classList (ui s)))
              (with_searchBar_value "" (ui s));
      world := snd (clipboard_writeText host (content prompt) (world s));
      log := log s ++ ClipboardWriteText (content prompt)
                      :: clipboard_failure
                           (fst (clipboard_writeText host (content prompt) (world s))) |}).
Proof.
  unfold li_click, mbind, M_bind, bind. rewrite clipboard_write_run. reflexivity.
Qed.

(** The "input" listener on a blank search bar is the hide action. *)
Lemma searchBar_input_blank (s : Sys W) :
  trim (searchBar_value (ui s)) = "" ->
  searchBar_input s = promptList_hide s.
Proof.
  intros Hblank. unfold searchBar_input, mbind, M_bind, bind, get.
  rewrite Hblank. reflexivity.
Qed.

Lemma type_query_blank (text : string) (s : Sys W) :
  trim text = "" ->
  type_query text s =
  promptList_hide {| ui := with_searchBar_value text (ui s);
                     world := world s; log := log s |}.
Proof.
  intros Hblank. unfold type_query, mbind, M_bind, bind, modify.
  apply searchBar_input_blank. exact Hblank.
Qed.

(** C2: whatever is loaded and whatever an earlier query left behind,
    emptying the search bar produces no results: [filterPrompts] is not
    run, nothing is rendered or sent to the backend, the result list is
    hidden, and no prompt is on screen. *)
Theorem empty_query_lists_nothing (s : Sys W) :
  let s' := exec (type_query "") s in
  outcome (type_query "") s = Normal tt
  /\ visible_items (ui s') = []
  /\ listed_prompts (visible_items (ui s')) = []
  /\ classList_contains "hidden" (promptList_classList (ui s')) = true
  /\ filteredPrompts (ui s') = filteredPrompts (ui s)
  /\ promptList_children (ui s') = promptList_children (ui s)
  /\ prompts (ui s') = prompts (ui s)
  /\ log s' = log s.
Proof.
  cbv zeta. unfold exec, outcome. rewrite (type_query_blank "" s trim_empty).
  rewrite promptList_hide_run.
  cbn [fst snd ui world log promptList_classList with_promptList_classList
       with_searchBar_value filteredPrompts promptList_children prompts].
  unfold visible_items.
  cbn [promptList_classList with_promptList_classList].
  rewrite classList_contains_add.
  repeat (split; [reflexivity |]). reflexivity.
Qed.

(** It is the guard of the listener that keeps an empty query from listing
    prompts: [filterPrompts] itself, on a query whose lowercase form is
    empty, selects every prompt. *)
Remark filterPrompts_empty_selects_all (s : Sys W) :
  toLowerCase "" = "" ->
  query_results "" s = prompts (ui s).
Proof.
  intros Hlower. rewrite query_results_filter, Hlower.
  induction (prompts (ui s)) as [|p l IH]; [reflexivity |].
  cbn [List.filter]. replace (matches_searchTerm "" p) with true.
  - f_equal. exact IH.
  - symmetry. unfold matches_searchTerm. apply orb_true_iff. left.
    apply includes_spec. exists ""%string, (toLowerCase (name p)). reflexivity.
Qed.

(** C5: hiding is idempotent.  Hiding the result list (or the settings
    dialog) twice leaves exactly the state that hiding it once leaves;
    hiding it when it is already hidden changes nothing and raises no
    error; and so the listeners that hide (a blank search bar, a selected
    prompt) leave the same page when they run twice as when they run
    once. *)
Theorem hide_idempotent (s : Sys W) :
  (promptList_hide;; promptList_hide) s = promptList_hide s
  /\ (settingsModal_hide;; settingsModal_hide) s = settingsModal_hide s
  /\ (classList_contains "hidden" (promptList_classList (ui s)) = true ->
      promptList_hide s = (Normal tt, s))
  /\ (classList_contains "hidden" (settingsModal_classList (ui s)) = true ->
      settingsModal_hide s = (Normal tt, s))
  /\ (forall text, trim text = "" ->
      (type_query text;; type_query text) s = type_query text s)
  /\ (forall prompt,
      ui (exec (li_click host prompt;; li_click host prompt) s)
      = ui (exec (li_click host prompt) s)).
Proof.
  split; [| split; [| split; [| split; [| split]]]].
  - unfold mbind, M_bind, bind. rewrite !promptList_hide_run.
    cbn [ui world log promptList_classList with_promptList_classList].
    rewrite classList_add_idempotent. reflexivity.
  - unfold mbind, M_bind, bind, settingsModal_hide, modify.
    cbn [ui world log settingsModal_classList with_settingsModal_classList].
    rewrite classList_add_idempotent. reflexivity.
  - intros Hhidden. rewrite promptList_hide_run.
    rewrite (classList_add_present _ _ Hhidden).
    rewrite with_promptList_classList_same, Sys_eta. reflexivity.
  - intros Hhidden. unfold settingsModal_hide, modify.
    rewrite (classList_add_present _ _ Hhidden).
    rewrite with_settingsModal_classList_same, Sys_eta. reflexivity.
  - intros text Hblank. unfold mbind, M_bind, bind.
    rewrite (type_query_blank text s Hblank), promptList_hide_run.
    rewrite (type_query_blank text _ Hblank), promptList_hide_run.
    cbn [ui world log promptList_classList with_promptList_classList
         with_searchBar_value].
    rewrite classList_add_idempotent. reflexivity.
  - intros prompt. unfold exec, mbind, M_bind, bind.
    rewrite li_click_run, li_click_run.
    cbn [snd ui promptList_classList with_promptList_classList with_searchBar_value].
    rewrite classList_add_idempotent. reflexivity.
Qed.

End VisibilityFacts.

Lemma hide_idempotent_witness :
  promptList_hide (Examples.start [] tt) = (Normal tt, Examples.start [] tt)
  /\ settingsModal_hide (Examples.start [] tt) = (Normal tt, Examples.start [] tt)
  /\ (type_query (rt:=ascii_runtime) " ";; type_query (rt:=ascii_runtime) " ")
       (Examples.start [] tt)
     = type_query (rt:=ascii_runtime) " " (Examples.start [] tt).
Proof.
  destruct (hide_idempotent (Examples.rejecting IoError) (rt:=ascii_runtime)
              (Examples.start [] tt))
    as (_ & _ & Hlist & Hdialog & Hblank & _).
  split; [apply Hlist; reflexivity |].
  split; [apply Hdialog; reflexivity |].
  apply Hblank. reflexivity.
Defined.

(** ** Selecting a prompt *)

Section SelectionFacts.

Context {W : Type} (host : Host W) {rt : StringRuntime}.

Lemma nth_error_rendered (shown : list Prompt) (i : nat) (p : Prompt) :
  nth_error shown i = Some p ->
  nth_error (rendered shown) i = Some {| textContent := name p; onclick := Some p |}.
Proof.
  intros Hnth. destruct shown as [|q shown].
  - destruct i; discriminate.
  - unfold rendered. rewrite nth_error_map, Hnth. reflexivity.
Qed.

Lemma promptList_click_selected (i : nat) (p : Prompt) (text : string) (s : Sys W) :
  nth_error (promptList_children (ui s)) i = Some {| textContent := text; onclick := Some p |} ->
  promptList_click host i s = li_click host p s.
Proof.
  intros Hnth. unfold promptList_click, mbind, M_bind, bind, get.
  rewrite Hnth. reflexivity.
Qed.

(** C7: when the user clicks the [i]-th item of the list that a query
    rendered, [navigator.clipboard.writeText] is called with the content of
    the [i]-th result, unmodified, as the next outward effect (followed only
    by the console report if the clipboard refuses), and the host is left in
    the state that this write of that content produces; the search bar is
    cleared and the result list hidden, so that no item remains on
    screen. *)
Theorem selecting_copies_content (query : string) (s : Sys W) (i : nat) (p : Prompt) :
  nth_error (query_results query s) i = Some p ->
  let s1 := exec (filterPrompts query) s in
  let s2 := exec (promptList_click host i) s1 in
  outcome (promptList_click host i) s1 = Normal tt
  /\ log s2 = log s1 ++ ClipboardWriteText (content p)
                        :: clipboard_failure
                             (fst (clipboard_writeText host (content p) (world s1)))
  /\ world s2 = snd (clipboard_writeText host (content p) (world s1))
  /\ searchBar_value (ui s2) = ""
  /\ classList_contains "hidden" (promptList_classList (ui s2)) = true
  /\ visible_items (ui s2) = [].
Proof.
  intros Hnth s1 s2.
  assert (Hclick : promptList_click host i s1 = li_click host p s1).
  { apply (promptList_click_selected i p (name p)).
    unfold s1. rewrite filterPrompts_children. apply nth_error_rendered, Hnth. }
  unfold s2, exec, outcome. rewrite Hclick, li_click_run.
  cbn [fst snd ui world log searchBar_value promptList_classList
       with_promptList_classList with_searchBar_value].
  unfold visible_items.
  cbn [promptList_classList with_promptList_classList].
  rewrite classList_contains_add.
  repeat (split; [reflexivity |]). reflexivity.
Qed.

End SelectionFacts.

Lemma selecting_copies_content_witness :
  log (exec (promptList_click Examples.clipboard_holder 0)
         (exec (filterPrompts (rt:=ascii_runtime) "hel")
            (Examples.start [Examples.Greeting ["name"]; Examples.BugReport []]
               "held before")))
  = [ClipboardWriteText "Hello {name}"]
  /\ world (exec (promptList_click Examples.clipboard_holder 0)
              (exec (filterPrompts (rt:=ascii_runtime) "hel")
                 (Examples.start [Examples.Greeting ["name"]; Examples.BugReport []]
                    "held before")))
     = "Hello {name}".
Proof.
  destruct (selecting_copies_content Examples.clipboard_holder (rt:=ascii_runtime)
              "hel"
              (Examples.start [Examples.Greeting ["name"]; Examples.BugReport []]
                 "held before")
              0 (Examples.Greeting ["name"]))
    as (_ & Hlog & Hworld & _).
  - reflexivity.
  - split; [exact Hlog | exact Hworld].
Defined.

(** ** The document-wide click listener *)

Section ClickFacts.

Context {W : Type} (host : Host W).

Lemma skipn_length_app {A} (l extra : list A) :
  skipn (length l) (l ++ extra) = extra.
Proof. induction l as [|x l IH]; [reflexivity | exact IH]. Qed.

Lemma skipn_length_self {A} (l : list A) : skipn (length l) l = [].
Proof. induction l as [|x l IH]; [reflexivity | exact IH]. Qed.

Lemma minimize_requested_eq (event : ClickEvent) (s : Sys W) :
  minimize_requested host event s =
  found_and_excludes_target (appContainer event)
  && negb (searchBar_is_activeElement event)
  && negb (found_and_excludes_target (settingsModal event)
           && negb (classList_contains "hidden" (settingsModal_classList (ui s)))).
Proof.
  unfold minimize_requested, exec, document_click, mbind, M_bind, bind, get,
    invoke_detached, mret, M_ret, ret.
  destruct (found_and_excludes_target (appContainer event));
    destruct (found_and_excludes_target (settingsModal event));
    destruct (classList_contains "hidden" (settingsModal_classList (ui s)));
    destruct (searchBar_is_activeElement event);
    cbn [andb negb fst snd];
    try (rewrite skipn_length_self; reflexivity);
    destruct (backend host minimize_window (world s)) as [r w'];
    cbn [snd log]; rewrite skipn_length_app; reflexivity.
Qed.

(** The listener changes nothing on the page itself. *)
Lemma document_click_keeps_ui (event : ClickEvent) (s : Sys W) :
  ui (exec (document_click host event) s) = ui s
  /\ outcome (document_click host event) s = Normal tt.
Proof.
  unfold exec, outcome, document_click, mbind, M_bind, bind, get,
    invoke_detached, mret, M_ret, ret.
  cbn [fst snd].
  destruct (_ && _ && _); [split; reflexivity |].
  destruct (_ && _); [| split; reflexivity].
  destruct (backend host minimize_window (world s)). split; reflexivity.
Qed.


End ClickFacts.



(** ** Loading prompts and saving settings *)

Section BackendFacts.

Context {W : Type} (host : Host W) {rt : StringRuntime}.

Lemma loadPrompts_run (s : Sys W) :
  let filePath := promptFilePath (settings (ui s)) in
  loadPrompts host s =
  match backend host (get_prompts filePath) (world s) with
  | (Resolved loaded, w') =>
      (Normal tt,
       {| ui := with_prompts loaded (ui s); world := w';
          log := log s ++ [Invoke (get_prompts filePath)] |})
  | (Rejected e, w') =>
      (Normal tt,
       {| ui := with_prompts [] (ui s); world := w';
          log := log s ++ [Invoke (get_prompts filePath);
                           ConsoleError (Some "Ошибка загрузки промптов:") e] |})
  end.
Proof.
  cbv zeta.
  unfold loadPrompts, try_catch, mbind, M_bind, bind, get, invoke, modify,
    console_error, emit.
  cbn [ui world log].
  destruct (backend host (get_prompts (promptFilePath (settings (ui s)))) (world s))
    as [[loaded|e] w']; cbn [ui world log].
  - reflexivity.
  - rewrite <- app_assoc. reflexivity.
Qed.

(** C4 (as amended): the prompt list after [loadPrompts] is never a partial
    result: it is either the complete list the backend resolved with or
    empty.  When [get_prompts] is rejected, the error is reported on the
    console, [loadPrompts] completes without throwing, and the previously
    loaded prompts are replaced by the empty list, so that every later
    query finds nothing. *)
Theorem failed_reload_empties_prompts (s : Sys W) :
  let filePath := promptFilePath (settings (ui s)) in
  let s' := exec (loadPrompts host) s in
  outcome (loadPrompts host) s = Normal tt
  /\ (prompts (ui s') = []
      \/ exists w', backend host (get_prompts filePath) (world s)
                    = (Resolved (prompts (ui s')), w'))
  /\ (forall e w',
        backend host (get_prompts filePath) (world s) = (Rejected e, w') ->
        prompts (ui s') = []
        /\ (forall query, query_results query s' = [])
        /\ log s' = log s ++ [Invoke (get_prompts filePath);
                              ConsoleError (Some "Ошибка загрузки промптов:") e]).
Proof.
  cbv zeta. unfold exec, outcome. rewrite loadPrompts_run. cbv zeta.
  destruct (backend host (get_prompts (promptFilePath (settings (ui s)))) (world s))
    as [[loaded|e] w'] eqn:Hanswer; cbn [fst snd ui prompts with_prompts].
  - split; [reflexivity |]. split; [right; exists w'; reflexivity |].
    intros e w'' Hrej. discriminate.
  - split; [reflexivity |]. split; [left; reflexivity |].
    intros e' w'' Hrej. injection Hrej as -> ->.
    split; [reflexivity |]. split; [| reflexivity].
    intros query. rewrite query_results_filter. reflexivity.
Qed.

Lemma saveSettings_run (s : Sys W) :
  let newPath := promptFilePathInput_value (ui s) in
  let newHotkey := hotkeyConfigInput_value (ui s) in
  saveSettings host s =
  match backend host (set_prompt_file_path newPath) (world s) with
  | (Rejected e, w1) =>
      (Throw e,
       {| ui := ui s; world := w1;
          log := log s ++ [Invoke (set_prompt_file_path newPath);
                           ConsoleError (Some "Ошибка сохранения настроек:") e] |})
  | (Resolved _, w1) =>
      match backend host (set_hotkey newHotkey) w1 with
      | (Rejected e, w2) =>
          (Throw e,
           {| ui := ui s; world := w2;
              log := log s ++ [Invoke (set_prompt_file_path newPath);
                               Invoke (set_hotkey newHotkey);
                               ConsoleError (Some "Ошибка сохранения настроек:") e] |})
      | (Resolved _, w2) =>
          (Normal tt,
           {| ui := with_settings {| promptFilePath := newPath; hotkey := newHotkey |} (ui s);
              world := w2;
              log := log s ++ [Invoke (set_prompt_file_path newPath);
                               Invoke (set_hotkey newHotkey)] |})
      end
  end.
Proof.
  cbv zeta.
  unfold saveSettings, try_catch, mbind, M_bind, bind, get, invoke, modify,
    console_error, emit, throw.
  cbn [ui world log].
  destruct (backend host (set_prompt_file_path (promptFilePathInput_value (ui s))) (world s))
    as [[u1|e1] w1]; cbn [ui world log].
  - destruct (backend host (set_hotkey (hotkeyConfigInput_value (ui s))) w1)
      as [[u2|e2] w2]; cbn [ui world log].
    + rewrite <- app_assoc. reflexivity.
    + rewrite <- !app_assoc. reflexivity.
  - rewrite <- app_assoc. reflexivity.
Qed.

(** C10: [saveSettings] calls [set_prompt_file_path] first and calls
    [set_hotkey] only once that call has resolved, on the backend state it
    left.  If the first call is rejected, [set_hotkey] is never invoked; if
    either call is rejected, the error is reported and thrown again to the
    caller and every field of the controller, the in-memory settings
    included, is as before.  Only when both calls resolve do the in-memory
    settings take the new path and hotkey. *)
Theorem saveSettings_all_or_nothing (s : Sys W) :
  let newPath := promptFilePathInput_value (ui s) in
  let newHotkey := hotkeyConfigInput_value (ui s) in
  let s' := exec (saveSettings host) s in
  (forall e w1,
     backend host (set_prompt_file_path newPath) (world s) = (Rejected e, w1) ->
     outcome (saveSettings host) s = Throw e
     /\ ui s' = ui s
     /\ world s' = w1
     /\ log s' = log s ++ [Invoke (set_prompt_file_path newPath);
                           ConsoleError (Some "Ошибка сохранения настроек:") e])
  /\ (forall u w1 e w2,
        backend host (set_prompt_file_path newPath) (world s) = (Resolved u, w1) ->
        backend host (set_hotkey newHotkey) w1 = (Rejected e, w2) ->
        outcome (saveSettings host) s = Throw e
        /\ ui s' = ui s
        /\ world s' = w2
        /\ log s' = log s ++ [Invoke (set_prompt_file_path newPath);
                              Invoke (set_hotkey newHotkey);
                              ConsoleError (Some "Ошибка сохранения настроек:") e])
  /\ (forall u1 w1 u2 w2,
        backend host (set_prompt_file_path newPath) (world s) = (Resolved u1, w1) ->
        backend host (set_hotkey newHotkey) w1 = (Resolved u2, w2) ->
        outcome (saveSettings host) s = Normal tt
        /\ ui s' = with_settings {| promptFilePath := newPath; hotkey := newHotkey |} (ui s)
        /\ world s' = w2
        /\ log s' = log s ++ [Invoke (set_prompt_file_path newPath);
                              Invoke (set_hotkey newHotkey)]).
Proof.
  cbv zeta. unfold exec, outcome. rewrite saveSettings_run. cbv zeta.
  split; [| split].
  - intros e w1 ->. repeat (split; [reflexivity |]). reflexivity.
  - intros u w1 e w2 -> ->. repeat (split; [reflexivity |]). reflexivity.
  - intros u1 w1 u2 w2 -> ->. repeat (split; [reflexivity |]). reflexivity.
Qed.

End BackendFacts.

Lemma failed_reload_empties_prompts_witness :
  prompts (ui (exec (loadPrompts (Examples.rejecting ParseError))
                 (Examples.start [Examples.Greeting ["name"]] tt))) = [].
Proof.
  refine (proj1 (proj2 (proj2
            (failed_reload_empties_prompts (Examples.rejecting ParseError)
               (rt:=ascii_runtime)
               (Examples.start [Examples.Greeting ["name"]] tt)))
            ParseError tt _)).
  reflexivity.
Defined.

(** C4, counterexample: "Greeting" is loaded and found by the query "hel";
    the backend then rejects [get_prompts] with a parse error; afterwards
    the prompt list is empty and the same query finds nothing. *)
Lemma failed_reload_loses_snapshot :
  let s := Examples.start [Examples.Greeting ["name"]] tt in
  let s' := exec (loadPrompts (Examples.rejecting ParseError)) s in
  backend (Examples.rejecting ParseError)
    (get_prompts (promptFilePath (settings (ui s)))) (world s) = (Rejected ParseError, tt)
  /\ prompts (ui s) = [Examples.Greeting ["name"]]
  /\ query_results (rt:=ascii_runtime) "hel" s = [Examples.Greeting ["name"]]
  /\ prompts (ui s') = []
  /\ query_results (rt:=ascii_runtime) "hel" s' = []
  /\ prompts (ui s') <> prompts (ui s).
Proof.
  cbv zeta. split; [reflexivity |]. split; [reflexivity |].
  split; [rewrite query_results_filter; reflexivity |].
  split; [reflexivity |].
  split; [rewrite query_results_filter; reflexivity |].
  discriminate.
Qed.

Lemma saveSettings_all_or_nothing_witness :
  (outcome (saveSettings (Examples.rejecting InvalidPath)) (Examples.start [] tt)
   = Throw InvalidPath
   /\ ui (exec (saveSettings (Examples.rejecting InvalidPath)) (Examples.start [] tt))
      = ui (Examples.start [] tt))
  /\ (outcome (saveSettings (Examples.rejecting_hotkeys ConflictWithReserved))
        (Examples.start [] tt)
      = Throw ConflictWithReserved
      /\ ui (exec (saveSettings (Examples.rejecting_hotkeys ConflictWithReserved))
               (Examples.start [] tt))
         = ui (Examples.start [] tt))
  /\ (outcome (saveSettings Examples.accepting_setters) (Examples.start [] tt)
      = Normal tt).
Proof.
  split; [| split].
  - destruct (proj1 (saveSettings_all_or_nothing (Examples.rejecting InvalidPath)
                       (Examples.start [] tt)) InvalidPath tt)
      as (Hthrown & Hui & _).
    + reflexivity.
    + split; [exact Hthrown | exact Hui].
  - destruct (proj1 (proj2 (saveSettings_all_or_nothing
                              (Examples.rejecting_hotkeys ConflictWithReserved)
                              (Examples.start [] tt)))
                tt tt ConflictWithReserved tt)
      as (Hthrown & Hui & _).
    + reflexivity.
    + reflexivity.
    + split; [exact Hthrown | exact Hui].
  - destruct (proj2 (proj2 (saveSettings_all_or_nothing Examples.accepting_setters
                              (Examples.start [] tt)))
                tt tt tt tt)
      as (Hdone & _).
    + reflexivity.
    + reflexivity.
    + exact Hdone.
Defined.

(** ** Setting the hotkey (against the ConfigManager of the specification) *)

(** C9: the backend operation of the specification rejects the empty
    binding with [InvalidBinding] and persists nothing.  When the hotkey
    field of the settings form is empty and the path has been accepted,
    [saveSettings] therefore throws [InvalidBinding]; the hotkey held by the
    backend and the settings held by the page are the ones from before. *)
Theorem empty_hotkey_rejected (reserved : list (list string))
    (others : forall c : Command, Settings -> Result (Reply c) * Settings)
    (clipboard : string -> Settings -> Result unit * Settings)
    (s : Sys Settings) :
  let host := {| backend := ConfigManager.backend_with_setHotkey reserved others;
                 clipboard_writeText := clipboard |} in
  let s' := exec (saveSettings host) s in
  (forall persisted,
     ConfigManager.setHotkey reserved "" persisted = (Rejected InvalidBinding, persisted))
  /\ (forall u w1,
        hotkeyConfigInput_value (ui s) = "" ->
        others (set_prompt_file_path (promptFilePathInput_value (ui s))) (world s)
        = (Resolved u, w1) ->
        outcome (saveSettings host) s = Throw InvalidBinding
        /\ settings (ui s') = settings (ui s)
        /\ world s' = w1
        /\ hotkey (world s') = hotkey w1).
Proof.
  cbv zeta. split; [reflexivity |].
  intros u w1 Hempty Hpath. unfold exec, outcome.
  rewrite saveSettings_run. cbv zeta.
  cbn [backend ConfigManager.backend_with_setHotkey].
  rewrite Hpath, Hempty.
  repeat (split; [reflexivity |]). reflexivity.
Qed.

Lemma empty_hotkey_rejected_witness :
  outcome (saveSettings Examples.config_host) Examples.form_without_hotkey
  = Throw InvalidBinding
  /\ hotkey (settings (ui (exec (saveSettings Examples.config_host)
                             Examples.form_without_hotkey))) = "Ctrl+Space"
  /\ hotkey (world (exec (saveSettings Examples.config_host)
                      Examples.form_without_hotkey)) = "Ctrl+Space".
Proof.
  destruct (proj2 (empty_hotkey_rejected [] Examples.config_others
                     Examples.config_clipboard Examples.form_without_hotkey)
              tt {| promptFilePath := "prompts.json"; hotkey := "Ctrl+Space" |})
    as (Hthrown & Hsettings & _ & Hhotkey).
  - reflexivity.
  - reflexivity.
  - unfold Examples.config_host.
    split; [exact Hthrown |].
    split; [rewrite Hsettings | rewrite Hhotkey]; reflexivity.
Defined.

(** * Further properties of the controller *)

(** ** More on class lists and strings *)

Lemma classList_remove_add (token : string) (cl : ClassList) :
  classList_remove token (classList_add token cl) = classList_remove token cl.
Proof.
  unfold classList_add. destruct (classList_contains token cl); [reflexivity |].
  unfold classList_remove. rewrite List.filter_app. cbn [List.filter].
  rewrite String.eqb_refl. cbn [negb]. apply app_nil_r.
Qed.

Lemma classList_remove_idempotent (token : string) (cl : ClassList) :
  classList_remove token (classList_remove token cl) = classList_remove token cl.
Proof.
  unfold classList_remove. induction cl as [|t cl IH]; [reflexivity |].
  cbn [List.filter]. destruct (negb (String.eqb token t)) eqn:E; [| exact IH].
  cbn [List.filter]. rewrite E. f_equal. exact IH.
Qed.

Lemma classList_contains_add_other (token other : string) (cl : ClassList) :
  other <> token ->
  classList_contains other (classList_add token cl) = classList_contains other cl.
Proof.
  intros Hne. unfold classList_add. destruct (classList_contains token cl); [reflexivity |].
  unfold classList_contains. rewrite existsb_app. cbn [existsb].
  apply String.eqb_neq in Hne. rewrite Hne. rewrite !orb_false_r. reflexivity.
Qed.

Lemma classList_contains_remove_other (token other : string) (cl : ClassList) :
  other <> token ->
  classList_contains other (classList_remove token cl) = classList_contains other cl.
Proof.
  intros Hne. unfold classList_contains, classList_remove.
  induction cl as [|t cl IH]; [reflexivity |].
  cbn [List.filter existsb]. destruct (String.eqb token t) eqn:E; cbn [negb existsb].
  - apply String.eqb_eq in E. subst t.
    apply String.eqb_neq in Hne. rewrite Hne. exact IH.
  - rewrite IH. reflexivity.
Qed.

Lemma string_app_assoc (a b c : string) :
  ((a ++ b) ++ c)%string = (a ++ b ++ c)%string.
Proof.
  induction a as [|x a IH]; [reflexivity |].
  rewrite !append_String, IH. reflexivity.
Qed.

(** Whatever contains a string contains its substrings. *)
Lemma includes_substring (s a t b : string) :
  includes s (a ++ t ++ b)%string = true -> includes s t = true.
Proof.
  rewrite !includes_spec. intros (x & y & ->).
  exists (x ++ a)%string, (b ++ y)%string.
  rewrite !string_app_assoc. reflexivity.
Qed.

Lemma filter_sublist_mono {A} (f g : A -> bool) (l : list A) :
  (forall x, f x = true -> g x = true) ->
  List.filter f l `sublist_of` List.filter g l.
Proof.
  intros Himp. induction l as [|x l IH]; [constructor |].
  cbn [List.filter]. destruct (f x) eqn:Ef.
  - rewrite (Himp x Ef). apply sublist_skip, IH.
  - destruct (g x); [apply sublist_cons, IH | exact IH].
Qed.

(** ** Typing in the search bar *)

Section TypingFacts.

Context {W : Type} (host : Host W) {rt : StringRuntime}.

Lemma searchBar_input_nonblank (s : Sys W) :
  trim (searchBar_value (ui s)) <> "" ->
  searchBar_input s =
  (Normal tt,
   let found := List.filter
                  (matches_searchTerm (toLowerCase (trim (searchBar_value (ui s)))))
                  (prompts (ui s)) in
   {| ui := with_promptList_classList
              (classList_remove "hidden" (promptList_classList (ui s)))
              (with_promptList_children (rendered found)
                 (with_filteredPrompts found (ui s)));
      world := world s; log := log s |}).
Proof.
  intros Hquery. apply String.eqb_neq in Hquery.
  unfold searchBar_input, mbind, M_bind, bind, get. cbn [ui].
  rewrite Hquery. cbn [negb]. rewrite filterPrompts_run. reflexivity.
Qed.

Lemma type_query_nonblank (text : string) (s : Sys W) :
  trim text <> "" ->
  type_query text s =
  (Normal tt,
   let found := List.filter (matches_searchTerm (toLowerCase (trim text)))
                  (prompts (ui s)) in
   {| ui := with_promptList_classList
              (classList_remove "hidden" (promptList_classList (ui s)))
              (with_promptList_children (rendered found)
                 (with_filteredPrompts found (with_searchBar_value text (ui s))));
      world := world s; log := log s |}).
Proof.
  intros Hquery. unfold type_query, mbind, M_bind, bind, modify.
  rewrite searchBar_input_nonblank; [reflexivity | exact Hquery].
Qed.

(** X1: a typed query whose trimmed form is not empty shows the list, and
    the prompts on screen are exactly the matches of the trimmed query, in
    order: white space around the query is ignored. *)
Theorem typed_query_lists_matches (text : string) (s : Sys W) :
  trim text <> "" ->
  let s' := exec (type_query text) s in
  outcome (type_query text) s = Normal tt
  /\ filteredPrompts (ui s') = query_results (trim text) s
  /\ listed_prompts (visible_items (ui s')) = query_results (trim text) s
  /\ classList_contains "hidden" (promptList_classList (ui s')) = false
  /\ searchBar_value (ui s') = text.
Proof.
  intros Hquery. cbv zeta. unfold exec, outcome.
  rewrite (type_query_nonblank text s Hquery). cbv zeta.
  rewrite query_results_filter. unfold visible_items.
  cbn [fst snd ui filteredPrompts promptList_classList promptList_children
       searchBar_value with_promptList_classList with_promptList_children
       with_filteredPrompts with_searchBar_value].
  rewrite classList_contains_remove, listed_rendered.
  repeat (split; [reflexivity |]). reflexivity.
Qed.

(** X2: when nothing matches, the list shows a single line, "Ничего не
    найдено", which carries no listener: a click on it, or anywhere past the
    end of the list, copies nothing and leaves the page as it is. *)
Theorem no_match_shows_inert_line (text : string) (s : Sys W) (i : nat) :
  trim text <> "" ->
  query_results (trim text) s = [] ->
  let s' := exec (type_query text) s in
  visible_items (ui s') = [{| textContent := "Ничего не найдено"; onclick := None |}]
  /\ promptList_click host i s' = (Normal tt, s').
Proof.
  intros Hquery Hnone. cbv zeta. unfold exec.
  rewrite (type_query_nonblank text s Hquery). cbv zeta.
  rewrite query_results_filter in Hnone. rewrite Hnone.
  unfold visible_items.
  cbn [snd ui promptList_classList promptList_children with_promptList_classList
       with_promptList_children with_filteredPrompts].
  rewrite classList_contains_remove. split; [reflexivity |].
  unfold promptList_click, mbind, M_bind, bind, get.
  cbn [ui promptList_children with_promptList_classList with_promptList_children rendered].
  destruct i as [|[|i]]; reflexivity.
Qed.

(** X3: what a query leaves behind does not depend on the queries typed
    before it. *)
Theorem query_forgets_earlier_queries (earlier text : string) (s : Sys W) :
  trim text <> "" ->
  (type_query earlier;; type_query text) s = type_query text s.
Proof.
  intros Hquery. unfold mbind, M_bind, bind.
  destruct (String.eqb (trim earlier) "") eqn:Hearlier.
  - apply String.eqb_eq in Hearlier.
    rewrite (type_query_blank earlier s Hearlier), promptList_hide_run.
    rewrite !(type_query_nonblank text _ Hquery). cbv zeta.
    cbn [ui world log prompts promptList_classList with_promptList_classList
         with_searchBar_value].
    rewrite classList_remove_add. reflexivity.
  - apply String.eqb_neq in Hearlier.
    rewrite (type_query_nonblank earlier s Hearlier).
    rewrite !(type_query_nonblank text _ Hquery). cbv zeta.
    cbn [ui world log prompts promptList_classList with_promptList_classList
         with_promptList_children with_filteredPrompts with_searchBar_value].
    rewrite classList_remove_idempotent. reflexivity.
Qed.

(** X4: typing never reaches outside the result list: it calls neither the
    backend nor the clipboard, never throws, and leaves the loaded prompts,
    the settings, the settings dialog and the settings form untouched. *)
Theorem typing_stays_local (text : string) (s : Sys W) :
  let s' := exec (type_query text) s in
  outcome (type_query text) s = Normal tt
  /\ log s' = log s
  /\ world s' = world s
  /\ prompts (ui s') = prompts (ui s)
  /\ settings (ui s') = settings (ui s)
  /\ settingsModal_classList (ui s') = settingsModal_classList (ui s)
  /\ promptFilePathInput_value (ui s') = promptFilePathInput_value (ui s)
  /\ hotkeyConfigInput_value (ui s') = hotkeyConfigInput_value (ui s).
Proof.
  cbv zeta. unfold exec, outcome.
  destruct (String.eqb (trim text) "") eqn:Hblank.
  - apply String.eqb_eq in Hblank.
    rewrite (type_query_blank text s Hblank), promptList_hide_run.
    repeat (split; [reflexivity |]). reflexivity.
  - apply String.eqb_neq in Hblank.
    rewrite (type_query_nonblank text s Hblank).
    repeat (split; [reflexivity |]). reflexivity.
Qed.

(** X5: extending a query never brings new results: if the lowercased
    query contains the lowercased shorter query, its results are among the
    results of the shorter one, in the same order. *)
Theorem longer_query_narrows (query shorter before after : string) (s : Sys W) :
  toLowerCase query = (before ++ toLowerCase shorter ++ after)%string ->
  query_results query s `sublist_of` query_results shorter s.
Proof.
  intros Hcontains. rewrite !query_results_filter. apply filter_sublist_mono.
  intros p. unfold matches_searchTerm. rewrite Hcontains, !orb_true_iff.
  intros [Hname | Hcontent]; [left | right]; eapply includes_substring; eassumption.
Qed.

End TypingFacts.

Lemma typed_query_lists_matches_witness :
  listed_prompts
    (visible_items
       (ui (exec (type_query (rt:=ascii_runtime) "  hel ")
              (Examples.start [Examples.Greeting ["name"]; Examples.BugReport []] tt))))
  = [Examples.Greeting ["name"]].
Proof.
  refine (eq_trans
            (proj1 (proj2 (proj2
               (typed_query_lists_matches (rt:=ascii_runtime) "  hel "
                  (Examples.start [Examples.Greeting ["name"]; Examples.BugReport []] tt)
                  _))))
            _).
  - vm_compute. discriminate.
  - rewrite query_results_filter. reflexivity.
Defined.

Lemma no_match_shows_inert_line_witness :
  promptList_click (Examples.rejecting IoError) 0
    (exec (type_query (rt:=ascii_runtime) "xyz")
       (Examples.start [Examples.Greeting ["name"]] tt))
  = (Normal tt,
     exec (type_query (rt:=ascii_runtime) "xyz")
       (Examples.start [Examples.Greeting ["name"]] tt)).
Proof.
  apply (no_match_shows_inert_line (Examples.rejecting IoError) (rt:=ascii_runtime)
           "xyz" (Examples.start [Examples.Greeting ["name"]] tt) 0).
  - vm_compute. discriminate.
  - rewrite query_results_filter. reflexivity.
Defined.

Lemma query_forgets_earlier_queries_witness :
  (type_query (rt:=ascii_runtime) "xyz";; type_query (rt:=ascii_runtime) "hel")
    (Examples.start [Examples.Greeting ["name"]] tt)
  = type_query (rt:=ascii_runtime) "hel" (Examples.start [Examples.Greeting ["name"]] tt).
Proof.
  apply (query_forgets_earlier_queries (rt:=ascii_runtime) "xyz" "hel").
  vm_compute. discriminate.
Defined.

Lemma longer_query_narrows_witness :
  query_results (rt:=ascii_runtime) "Report"
    (Examples.start [Examples.Greeting []; Examples.BugReport []] tt)
  `sublist_of`
  query_results (rt:=ascii_runtime) "RE"
    (Examples.start [Examples.Greeting []; Examples.BugReport []] tt).
Proof.
  apply (longer_query_narrows (rt:=ascii_runtime) "Report" "RE" "" "port").
  reflexivity.
Defined.

(** ** Loading the settings, the save button, the browse button *)

Section SettingsFacts.

Context {W : Type} (host : Host W).

(** [loadPrompts] swallows the rejection it may meet. *)
Lemma loadPrompts_outcome (s : Sys W) :
  outcome (loadPrompts host) s = Normal tt.
Proof.
  unfold outcome. rewrite loadPrompts_run. cbv zeta.
  destruct (backend host _ (world s)) as [[loaded|e] w']; reflexivity.
Qed.

Lemma loadPrompts_frame (s : Sys W) :
  let s' := exec (loadPrompts host) s in
  ui s' = with_prompts (prompts (ui s')) (ui s)
  /\ exists tail,
       log s' = log s ++ Invoke (get_prompts (promptFilePath (settings (ui s)))) :: tail.
Proof.
  cbv zeta. unfold exec. rewrite loadPrompts_run. cbv zeta.
  destruct (backend host _ (world s)) as [[loaded|e] w']; cbn [snd ui log];
    (split; [reflexivity | eexists; reflexivity]).
Qed.

Lemma loadSettings_run (s : Sys W) :
  loadSettings host s =
  match backend host get_config (world s) with
  | (Resolved config, w1) =>
      loadPrompts host
        {| ui := with_hotkeyConfigInput_value (hotkey config)
                   (with_promptFilePathInput_value (promptFilePath config)
                      (with_settings config (ui s)));
           world := w1; log := log s ++ [Invoke get_config] |}
  | (Rejected e, w1) =>
      (Normal tt,
       {| ui := ui s; world := w1;
          log := log s ++ [Invoke get_config;
                           ConsoleError (Some "Ошибка загрузки настроек:") e] |})
  end.
Proof.
  unfold loadSettings, try_catch, mbind, M_bind, bind, invoke, modify,
    console_error, emit.
  destruct (backend host get_config (world s)) as [[config|e] w1]; cbn [ui world log].
  - match goal with
    | |- context [loadPrompts host ?st] =>
        pose proof (loadPrompts_outcome st) as Hdone; unfold outcome in Hdone;
        destruct (loadPrompts host st) as [c st'] eqn:Hload
    end.
    cbn [fst] in Hdone. subst c. reflexivity.
  - rewrite <- app_assoc. reflexivity.
Qed.

(** X6: [loadSettings] never throws.  If [get_config] is rejected the
    controller is left as it was and the prompts are not requested.  If it
    resolves, the in-memory settings are the configuration received, both
    fields of the settings form show it, and the prompts are requested next,
    for the path of that configuration. *)
Theorem loadSettings_mirrors_config (s : Sys W) :
  let s' := exec (loadSettings host) s in
  outcome (loadSettings host) s = Normal tt
  /\ (forall e w1,
        backend host get_config (world s) = (Rejected e, w1) ->
        ui s' = ui s
        /\ log s' = log s ++ [Invoke get_config;
                              ConsoleError (Some "Ошибка загрузки настроек:") e])
  /\ (forall config w1,
        backend host get_config (world s) = (Resolved config, w1) ->
        settings (ui s') = config
        /\ promptFilePathInput_value (ui s') = promptFilePath config
        /\ hotkeyConfigInput_value (ui s') = hotkey config
        /\ exists tail,
             log s' = log s ++ Invoke get_config
                               :: Invoke (get_prompts (promptFilePath config)) :: tail).
Proof.
  cbv zeta. unfold exec, outcome. rewrite loadSettings_run.
  destruct (backend host get_config (world s)) as [[config|e] w1].
  - split; [apply loadPrompts_outcome |].
    split; [intros e w1' Hrej; discriminate |].
    intros config' w1' Hres. injection Hres as <- <-.
    match goal with
    | |- context [loadPrompts host ?st] =>
        destruct (loadPrompts_frame st) as (Hui & tail & Hlog)
    end.
    unfold exec in Hui, Hlog. rewrite Hui, Hlog.
    cbn [ui log settings promptFilePathInput_value hotkeyConfigInput_value
         with_prompts with_settings with_promptFilePathInput_value
         with_hotkeyConfigInput_value promptFilePath].
    repeat (split; [reflexivity |]).
    exists tail. rewrite <- app_assoc. reflexivity.
  - split; [reflexivity |].
    split; [| intros config w1' Hres; discriminate].
    intros e' w1' Hrej. injection Hrej as <- <-. split; reflexivity.
Qed.

Lemma saveSettingsBtn_click_run (s : Sys W) :
  saveSettingsBtn_click host s =
  match saveSettings host s with
  | (Normal _, s1) =>
      loadPrompts host
        {| ui := with_settingsModal_classList
                   (classList_add "hidden" (settingsModal_classList (ui s1))) (ui s1);
           world := world s1; log := log s1 |}
  | (Throw e, s1) =>
      (Normal tt,
       {| ui := ui s1; world := world s1;
          log := log s1 ++ [ConsoleError (Some "Ошибка при сохранении настроек:") e] |})
  end.
Proof.
  unfold saveSettingsBtn_click, try_catch, mbind, M_bind, bind, settingsModal_hide,
    modify, console_error, emit.
  destruct (saveSettings host s) as [[u|e] s1]; [| reflexivity].
  match goal with
  | |- context [loadPrompts host ?st] =>
      pose proof (loadPrompts_outcome st) as Hdone; unfold outcome in Hdone;
      destruct (loadPrompts host st) as [c st'] eqn:Hload
  end.
  cbn [fst] in Hdone. subst c. reflexivity.
Qed.

(** X7: the save button never throws.  When [saveSettings] fails, the
    settings dialog stays as it is, the loaded prompts and the settings are
    kept, the prompts are not requested again, and the error is reported once
    more.  When it succeeds, the dialog is hidden and the prompts are
    requested for the path just saved. *)
Theorem save_button_reloads_only_after_success (s : Sys W) :
  let s1 := exec (saveSettings host) s in
  let s' := exec (saveSettingsBtn_click host) s in
  outcome (saveSettingsBtn_click host) s = Normal tt
  /\ (forall e,
        outcome (saveSettings host) s = Throw e ->
        ui s' = ui s
        /\ world s' = world s1
        /\ log s' = log s1 ++ [ConsoleError (Some "Ошибка при сохранении настроек:") e])
  /\ (outcome (saveSettings host) s = Normal tt ->
      settings (ui s') = {| promptFilePath := promptFilePathInput_value (ui s);
                            hotkey := hotkeyConfigInput_value (ui s) |}
      /\ classList_contains "hidden" (settingsModal_classList (ui s')) = true
      /\ exists tail,
           log s' = log s1 ++ Invoke (get_prompts (promptFilePathInput_value (ui s))) :: tail).
Proof.
  cbv zeta. unfold exec, outcome. rewrite saveSettingsBtn_click_run.
  rewrite saveSettings_run. cbv zeta.
  destruct (backend host (set_prompt_file_path _) (world s)) as [[u1|e1] w1].
  - destruct (backend host (set_hotkey _) w1) as [[u2|e2] w2].
    + cbn [fst snd ui world log].
      split; [apply loadPrompts_outcome |].
      split; [intros e Hthrown; discriminate |]. intros _.
      match goal with
      | |- context [loadPrompts host ?st] =>
          destruct (loadPrompts_frame st) as (Hui & tail & Hlog)
      end.
      unfold exec in Hui, Hlog. rewrite Hui, Hlog.
      cbn [ui log settings settingsModal_classList with_prompts with_settings
           with_settingsModal_classList promptFilePath].
      rewrite classList_contains_add.
      split; [reflexivity |]. split; [reflexivity |]. exists tail. reflexivity.
    + cbn [fst snd ui world log].
      split; [reflexivity |].
      split; [| intros Hdone; discriminate].
      intros e Hthrown. injection Hthrown as <-. repeat split; reflexivity.
  - cbn [fst snd ui world log].
    split; [reflexivity |].
    split; [| intros Hdone; discriminate].
    intros e Hthrown. injection Hthrown as <-. repeat split; reflexivity.
Qed.

(** X8: the browse button never throws and changes nothing but the path
    field of the form: the field takes the path the dialog returned, and
    keeps its content when the dialog is cancelled (empty answer) or fails;
    the settings themselves only change on save. *)
Theorem browse_fills_path_field (s : Sys W) :
  let s' := exec (browseBtn_click host) s in
  outcome (browseBtn_click host) s = Normal tt
  /\ ui s' = with_promptFilePathInput_value (promptFilePathInput_value (ui s')) (ui s)
  /\ (forall selected w1,
        backend host open_prompt_file_dialog (world s) = (Resolved selected, w1) ->
        promptFilePathInput_value (ui s')
        = (if String.eqb selected "" then promptFilePathInput_value (ui s) else selected)
        /\ log s' = log s ++ [Invoke open_prompt_file_dialog])
  /\ (forall e w1,
        backend host open_prompt_file_dialog (world s) = (Rejected e, w1) ->
        ui s' = ui s
        /\ log s' = log s ++ [Invoke open_prompt_file_dialog;
                              ConsoleError (Some "Ошибка при выборе файла:") e]).
Proof.
  cbv zeta.
  unfold exec, outcome, browseBtn_click, try_catch, mbind, M_bind, bind, invoke,
    modify, console_error, emit, mret, M_ret, ret.
  destruct (backend host open_prompt_file_dialog (world s)) as [[selected|e] w1];
    cbn [ui world log].
  - destruct (String.eqb selected "") eqn:Hsel; cbn [negb fst snd ui log].
    + split; [reflexivity |].
      split; [destruct (ui s); reflexivity |].
      split; [| intros e w1' Hrej; discriminate].
      intros selected' w1' Hres. injection Hres as <- <-.
      rewrite Hsel. split; reflexivity.
    + split; [reflexivity |].
      split; [reflexivity |].
      split; [| intros e w1' Hrej; discriminate].
      intros selected' w1' Hres. injection Hres as <- <-.
      rewrite Hsel. split; reflexivity.
  - cbn [fst snd ui log].
    split; [reflexivity |].
    split; [destruct (ui s); reflexivity |].
    split; [intros selected w1' Hres; discriminate |].
    intros e' w1' Hrej. injection Hrej as <- <-.
    split; [reflexivity |]. rewrite <- app_assoc. reflexivity.
Qed.

End SettingsFacts.

Lemma loadSettings_mirrors_config_witness :
  ui (exec (loadSettings (Examples.rejecting IoError)) (Examples.start [] tt))
  = ui (Examples.start [] tt)
  /\ settings (ui (exec (loadSettings (Samples.serving Samples.ctrl_space [] "picked.json"))
                     (Examples.start [] tt)))
     = Samples.ctrl_space.
Proof.
  split.
  - apply (proj1 (proj2 (loadSettings_mirrors_config (Examples.rejecting IoError)
                           (Examples.start [] tt)))
             IoError tt).
    reflexivity.
  - apply (proj2 (proj2 (loadSettings_mirrors_config
                           (Samples.serving Samples.ctrl_space [] "picked.json")
                           (Examples.start [] tt)))
             Samples.ctrl_space tt).
    reflexivity.
Defined.

Lemma save_button_reloads_only_after_success_witness :
  ui (exec (saveSettingsBtn_click (Examples.rejecting InvalidPath)) (Examples.start [] tt))
  = ui (Examples.start [] tt)
  /\ classList_contains "hidden"
       (settingsModal_classList
          (ui (exec (saveSettingsBtn_click
                       (Samples.serving Samples.ctrl_space [] "picked.json"))
                 (Examples.start [] tt)))) = true.
Proof.
  split.
  - apply (proj1 (proj2 (save_button_reloads_only_after_success
                           (Examples.rejecting InvalidPath) (Examples.start [] tt)))
             InvalidPath).
    reflexivity.
  - apply (proj2 (proj2 (save_button_reloads_only_after_success
                           (Samples.serving Samples.ctrl_space [] "picked.json")
                           (Examples.start [] tt)))).
    reflexivity.
Defined.

Lemma browse_fills_path_field_witness :
  promptFilePathInput_value
    (ui (exec (browseBtn_click (Samples.serving Samples.ctrl_space [] "picked.json"))
           (Examples.start [] tt))) = "picked.json"
  /\ ui (exec (browseBtn_click (Examples.rejecting IoError)) (Examples.start [] tt))
     = ui (Examples.start [] tt).
Proof.
  split.
  - apply (proj1 (proj2 (proj2 (browse_fills_path_field
                                  (Samples.serving Samples.ctrl_space [] "picked.json")
                                  (Examples.start [] tt))))
             "picked.json" tt).
    reflexivity.
  - apply (proj2 (proj2 (proj2 (browse_fills_path_field (Examples.rejecting IoError)
                                  (Examples.start [] tt))))
             IoError tt).
    reflexivity.
Defined.

(** ** Clicks and the settings dialog *)

Section DialogFacts.

Context {W : Type} (host : Host W).

Lemma document_click_log (event : ClickEvent) (s : Sys W) :
  log (exec (document_click host event) s)
  = log s ++ (if minimize_requested host event s then [Invoke minimize_window] else []).
Proof.
  rewrite minimize_requested_eq.
  unfold exec, document_click, mbind, M_bind, bind, get, invoke_detached,
    mret, M_ret, ret.
  destruct (found_and_excludes_target (appContainer event));
    destruct (found_and_excludes_target (settingsModal event));
    destruct (classList_contains "hidden" (settingsModal_classList (ui s)));
    destruct (searchBar_is_activeElement event);
    cbn [andb negb fst snd];
    try (symmetry; apply app_nil_r);
    destruct (backend host minimize_window (world s)) as [r w']; reflexivity.
Qed.

(** X9: a click anywhere never changes the page and never throws; the only
    thing it can do is request [minimize_window], once.  It requests nothing
    when the app container is missing, when the click is inside it, or when
    the search field has the focus. *)
Theorem click_only_ever_minimizes (event : ClickEvent) (s : Sys W) :
  let s' := exec (document_click host event) s in
  outcome (document_click host event) s = Normal tt
  /\ ui s' = ui s
  /\ (log s' = log s \/ log s' = log s ++ [Invoke minimize_window])
  /\ (appContainer event <> Some false \/ searchBar_is_activeElement event = true ->
      log s' = log s /\ world s' = world s).
Proof.
  cbv zeta.
  destruct (document_click_keeps_ui host event s) as [Hui Hdone].
  split; [exact Hdone |]. split; [exact Hui |].
  split.
  - rewrite document_click_log.
    destruct (minimize_requested host event s); [right; reflexivity |].
    left. apply app_nil_r.
  - intros Hquiet.
    unfold exec, document_click, mbind, M_bind, bind, get, invoke_detached,
      mret, M_ret, ret.
    destruct event as [[[|]|] modal focused]; cbn [appContainer
      searchBar_is_activeElement found_and_excludes_target andb negb fst snd] in *;
      try (split; reflexivity).
    destruct Hquiet as [Habsurd | ->]; [contradiction Habsurd; reflexivity |].
    cbn [negb andb].
    destruct (found_and_excludes_target (settingsModal _) && _); split; reflexivity.
Qed.

(** X10: opening and closing the settings dialog touch only the token
    [hidden] of the dialog.  From the settings button until the dialog is
    closed, a click outside both the popup and the dialog never minimises the
    window; once it is closed by its button or by a click on its backdrop,
    such a click minimises again unless the search field has the focus.  A
    click inside the dialog's content does not close it. *)
Theorem settings_dialog_session (event : ClickEvent) (other : string) (s : Sys W) :
  appContainer event = Some false ->
  settingsModal event = Some false ->
  other <> "hidden" ->
  let opened := exec settingsBtn_click s in
  let closed := exec closeSettingsBtn_click opened in
  minimize_requested host event opened = false
  /\ minimize_requested host event closed = negb (searchBar_is_activeElement event)
  /\ exec (settingsModal_click true) opened = closed
  /\ exec (settingsModal_click false) opened = opened
  /\ classList_contains other (settingsModal_classList (ui opened))
     = classList_contains other (settingsModal_classList (ui s))
  /\ classList_contains other (settingsModal_classList (ui closed))
     = classList_contains other (settingsModal_classList (ui s))
  /\ ui closed = with_settingsModal_classList (settingsModal_classList (ui closed)) (ui s).
Proof.
  intros Happ Hmodal Hother. cbv zeta.
  rewrite !minimize_requested_eq, Happ, Hmodal.
  unfold exec, settingsBtn_click, closeSettingsBtn_click, settingsModal_click,
    settingsModal_show, settingsModal_hide, modify, mret, M_ret, ret.
  cbn [snd ui world log settingsModal_classList with_settingsModal_classList
       found_and_excludes_target negb andb].
  rewrite classList_contains_remove, classList_contains_add.
  rewrite (classList_contains_add_other _ _ _ Hother).
  rewrite (classList_contains_remove_other _ _ _ Hother).
  cbn [negb andb].
  split; [destruct (searchBar_is_activeElement event); reflexivity |].
  split; [destruct (searchBar_is_activeElement event); reflexivity |].
  split; [reflexivity |].
  split; [reflexivity |].
  split; [reflexivity |].
  split; [reflexivity |].
  destruct (ui s); reflexivity.
Qed.

End DialogFacts.

Lemma click_only_ever_minimizes_witness :
  log (exec (document_click (Examples.rejecting IoError)
               {| appContainer := Some true; settingsModal := None;
                  searchBar_is_activeElement := false |})
         (Examples.start [] tt)) = [].
Proof.
  apply (proj2 (proj2 (proj2 (click_only_ever_minimizes (Examples.rejecting IoError)
                                {| appContainer := Some true; settingsModal := None;
                                   searchBar_is_activeElement := false |}
                                (Examples.start [] tt))))).
  left. discriminate.
Defined.

Lemma settings_dialog_session_witness :
  minimize_requested (Examples.rejecting IoError)
    {| appContainer := Some false; settingsModal := Some false;
       searchBar_is_activeElement := false |}
    (exec settingsBtn_click (Examples.start [] tt)) = false.
Proof.
  apply (settings_dialog_session (Examples.rejecting IoError)
           {| appContainer := Some false; settingsModal := Some false;
              searchBar_is_activeElement := false |}
           "settings-modal" (Examples.start [] tt)).
  - reflexivity.
  - reflexivity.
  - discriminate.
Defined.

(** ** Themes *)

Lemma savedTheme_nonempty (d : Document) : savedTheme d <> "".
Proof.
  unfold savedTheme. destruct (localStorage d !! "theme") as [stored|]; [| discriminate].
  destruct (String.eqb stored "") eqn:E; [discriminate |].
  apply String.eqb_neq. exact E.
Qed.

Lemma setTheme_accepted (theme : string) (d : Document) :
  storage_refuses d "theme" theme = false ->
  setTheme theme d =
  (Normal tt,
   {| localStorage := <["theme" := theme]> (localStorage d);
      storage_refuses := storage_refuses d;
      root_attributes := <["data-theme" := theme]> (root_attributes d);
      themeToggle := themeToggle d; listeners := listeners d |}).
Proof. intros Hok. unfold setTheme. rewrite Hok. reflexivity. Qed.

(** X11: when the store accepts the write, [initializeTheme] completes
    and leaves the stored theme, the [data-theme] attribute of the root
    element and (as far as its options allow) the toggle in agreement on one
    non-empty theme: the stored one, or "dark" when none or an empty one is
    stored.  No other key of the store and no other attribute is touched. *)
Theorem initializeTheme_agrees (d : Document) :
  storage_refuses d "theme" (savedTheme d) = false ->
  let d' := snd (initializeTheme d) in
  fst (initializeTheme d) = Normal tt
  /\ savedTheme d <> ""
  /\ (localStorage d !! "theme" = None \/ localStorage d !! "theme" = Some "" ->
      savedTheme d = "dark")
  /\ localStorage d' !! "theme" = Some (savedTheme d)
  /\ root_attributes d' !! "data-theme" = Some (savedTheme d)
  /\ themeToggle d' = select_assign (savedTheme d) <$> themeToggle d
  /\ (forall key, key <> "theme" -> localStorage d' !! key = localStorage d !! key)
  /\ (forall attribute, attribute <> "data-theme" ->
        root_attributes d' !! attribute = root_attributes d !! attribute).
Proof.
  intros Hok. cbv zeta. unfold initializeTheme. cbv zeta.
  rewrite (setTheme_accepted _ _ Hok). cbn [themeToggle].
  split; [destruct (themeToggle d); reflexivity |].
  split; [apply savedTheme_nonempty |].
  split.
  { intros [Hnone | Hempty]; unfold savedTheme; [rewrite Hnone | rewrite Hempty];
      reflexivity. }
  destruct (themeToggle d) as [toggle|];
    cbn [fst snd localStorage root_attributes themeToggle fmap option_fmap option_map];
    (split; [apply lookup_insert_eq |]);
    (split; [apply lookup_insert_eq |]);
    (split; [reflexivity |]);
    (split; [intros key Hkey | intros attribute Hattr]);
    apply lookup_insert_ne; congruence.
Qed.

(** X12: a theme picked in the toggle survives a reload.  If the choice is
    one of the toggle's options, is not empty, and the store accepts it, the
    root element takes it at once; and on any later document with the same
    store, [initializeTheme] applies that same theme again. *)
Theorem chosen_theme_survives_reload (choice : string) (toggle : Select)
    (d reloaded : Document) :
  themeToggle d = Some toggle ->
  In choice (select_options toggle) ->
  choice <> "" ->
  storage_refuses d "theme" choice = false ->
  let d1 := snd (choose_theme choice d) in
  localStorage reloaded = localStorage d1 ->
  storage_refuses reloaded "theme" choice = false ->
  fst (choose_theme choice d) = Normal tt
  /\ root_attributes d1 !! "data-theme" = Some choice
  /\ savedTheme reloaded = choice
  /\ fst (initializeTheme reloaded) = Normal tt
  /\ root_attributes (snd (initializeTheme reloaded)) !! "data-theme" = Some choice.
Proof.
  intros Htoggle Hoption Hnonempty Hok. cbv zeta.
  assert (Hassign : select_value (select_assign choice toggle) = choice).
  { unfold select_assign. cbn [select_value].
    replace (existsb (String.eqb choice) (select_options toggle)) with true; [reflexivity |].
    symmetry. apply existsb_exists. exists choice.
    split; [exact Hoption | apply String.eqb_refl]. }
  unfold choose_theme, themeToggle_change. rewrite Htoggle.
  cbn [themeToggle fmap option_fmap option_map]. rewrite Hassign.
  rewrite setTheme_accepted by exact Hok.
  cbn [fst snd localStorage root_attributes].
  intros Hstore Hok'.
  assert (Hsaved : savedTheme reloaded = choice).
  { unfold savedTheme. rewrite Hstore, lookup_insert_eq.
    apply String.eqb_neq in Hnonempty. rewrite Hnonempty. reflexivity. }
  split; [reflexivity |].
  split; [apply lookup_insert_eq |].
  split; [exact Hsaved |].
  unfold initializeTheme. cbv zeta. rewrite Hsaved.
  rewrite (setTheme_accepted _ _ Hok'). cbn [themeToggle].
  destruct (themeToggle reloaded); cbn [fst snd root_attributes];
    (split; [reflexivity | apply lookup_insert_eq]).
Qed.

(** X13: when the store refuses the write, [setTheme] throws after the
    root element has taken the theme and with the store unchanged; an
    [initializeTheme] that meets this neither sets the toggle nor registers
    its "change" listener. *)
Theorem refused_store_leaves_toggle_unwired (d : Document) :
  storage_refuses d "theme" (savedTheme d) = true ->
  let d' := snd (initializeTheme d) in
  (exists e, fst (initializeTheme d) = Throw e)
  /\ root_attributes d' !! "data-theme" = Some (savedTheme d)
  /\ localStorage d' = localStorage d
  /\ themeToggle d' = themeToggle d
  /\ listeners d' = listeners d.
Proof.
  intros Hfull. cbv zeta. unfold initializeTheme, setTheme. cbv zeta. rewrite Hfull.
  cbn [fst snd localStorage root_attributes themeToggle listeners].
  split; [eexists; reflexivity |].
  split; [apply lookup_insert_eq |].
  repeat (split; [reflexivity |]). reflexivity.
Qed.

Lemma initializeTheme_agrees_witness :
  root_attributes (snd (initializeTheme (Samples.themed None))) !! "data-theme"
  = Some "dark"
  /\ root_attributes (snd (initializeTheme (Samples.themed (Some "light")))) !! "data-theme"
     = Some "light".
Proof.
  split.
  - refine (proj1 (proj2 (proj2 (proj2 (proj2
              (initializeTheme_agrees (Samples.themed None) _)))))).
    reflexivity.
  - refine (eq_trans
              (proj1 (proj2 (proj2 (proj2 (proj2
                 (initializeTheme_agrees (Samples.themed (Some "light")) _))))))
              _).
    + reflexivity.
    + vm_compute. reflexivity.
Defined.

Lemma chosen_theme_survives_reload_witness :
  savedTheme (snd (choose_theme "light" (Samples.themed None))) = "light".
Proof.
  refine (proj1 (proj2 (proj2
            (chosen_theme_survives_reload "light"
               {| select_options := ["dark"; "light"]; select_value := "dark" |}
               (Samples.themed None)
               (snd (choose_theme "light" (Samples.themed None)))
               _ _ _ _ _ _)))).
  - reflexivity.
  - right. left. reflexivity.
  - discriminate.
  - reflexivity.
  - reflexivity.
  - reflexivity.
Defined.

Lemma refused_store_leaves_toggle_unwired_witness :
  listeners (snd (initializeTheme Samples.full_store)) = [].
Proof.
  refine (proj2 (proj2 (proj2 (proj2
            (refused_store_leaves_toggle_unwired Samples.full_store _))))).
  reflexivity.
Defined.

Lemma initializeTheme_accepted (d : Document) :
  storage_refuses d "theme" (savedTheme d) = false ->
  initializeTheme d =
  (Normal tt,
   {| localStorage := <["theme" := savedTheme d]> (localStorage d);
      storage_refuses := storage_refuses d;
      root_attributes := <["data-theme" := savedTheme d]> (root_attributes d);
      themeToggle := select_assign (savedTheme d) <$> themeToggle d;
      listeners := listeners d ++ match themeToggle d with
                                  | Some _ => [("theme-toggle", "change")]
                                  | None => []
                                  end |}).
Proof.
  intros Hok. unfold initializeTheme. cbv zeta.
  rewrite (setTheme_accepted _ _ Hok). cbn [themeToggle].
  destruct (themeToggle d); [reflexivity |].
  cbn [fmap option_fmap option_map]. rewrite app_nil_r. reflexivity.
Qed.

Lemma initializeTheme_refused (d : Document) :
  storage_refuses d "theme" (savedTheme d) = true ->
  exists e d', initializeTheme d = (Throw e, d').
Proof.
  intros Hfull. unfold initializeTheme, setTheme. cbv zeta. rewrite Hfull.
  eexists. eexists. reflexivity.
Qed.

(** ** The single instance *)

Section InstanceFacts.

Context {W : Type} (host : Host W).

Lemma loadSettings_outcome (s : Sys W) :
  outcome (loadSettings host) s = Normal tt.
Proof.
  unfold outcome. rewrite loadSettings_run.
  destruct (backend host get_config (world s)) as [[config|e] w1]; [| reflexivity].
  apply loadPrompts_outcome.
Qed.

Lemma loadSettings_requests_config (s : Sys W) :
  exists tail, log (exec (loadSettings host) s) = log s ++ Invoke get_config :: tail.
Proof.
  unfold exec. rewrite loadSettings_run.
  destruct (backend host get_config (world s)) as [[config|e] w1].
  - match goal with
    | |- context [loadPrompts host ?st] =>
        destruct (loadPrompts_frame host st) as (_ & tail & Hlog)
    end.
    unfold exec in Hlog. rewrite Hlog. cbn [log].
    eexists. rewrite <- app_assoc. reflexivity.
  - eexists. reflexivity.
Qed.

(** X14: [getInstance] builds the controller at most once.  A first call
    that completes sets the instance, asks the backend for the configuration
    and registers each listener once; any further call returns that instance
    and does nothing else: nothing is requested again and no listener is
    registered twice. *)
Theorem getInstance_constructs_once (a a' : Application W) :
  instance a = false ->
  getInstance host a = (Normal tt, a') ->
  instance a' = true
  /\ getInstance host a' = (Normal tt, a')
  /\ (exists tail, log (manager a') = log (manager a) ++ Invoke get_config :: tail)
  /\ listeners (document a')
     = listeners (document a) ++ construction_listeners (document a).
Proof.
  intros Hnew Hbuilt. unfold getInstance in Hbuilt. rewrite Hnew in Hbuilt.
  cbn [negb] in Hbuilt. unfold constructor in Hbuilt. cbv zeta in Hbuilt.
  match type of Hbuilt with
  | context [try_catch (loadSettings host) ?h ?st] =>
      pose proof (loadSettings_outcome st) as Hdone;
      destruct (loadSettings_requests_config st) as [tail Hlog];
      unfold outcome in Hdone; unfold exec in Hlog;
      unfold try_catch in Hbuilt;
      destruct (loadSettings host st) as [c loaded]
  end.
  cbn [fst] in Hdone. subst c. cbn [snd log] in Hlog.
  destruct (storage_refuses (initializeEventListeners (document a)) "theme"
              (savedTheme (initializeEventListeners (document a)))) eqn:Hstore.
  - destruct (initializeTheme_refused _ Hstore) as (e & d2 & Hthrown).
    rewrite Hthrown in Hbuilt. discriminate.
  - rewrite (initializeTheme_accepted _ Hstore) in Hbuilt.
    injection Hbuilt as <-.
    cbn [instance manager document listeners add_document_click_listener
         initializeEventListeners themeToggle getInstance negb].
    split; [reflexivity |]. split; [reflexivity |].
    split; [exists tail; exact Hlog |].
    unfold construction_listeners. rewrite <- !app_assoc. reflexivity.
Qed.

End InstanceFacts.

Lemma getInstance_constructs_once_witness :
  instance (snd (getInstance (Examples.rejecting IoError)
                   (Samples.application (Samples.themed None)))) = true.
Proof.
  refine (proj1 (getInstance_constructs_once (Examples.rejecting IoError)
                   (Samples.application (Samples.themed None))
                   (snd (getInstance (Examples.rejecting IoError)
                           (Samples.application (Samples.themed None))))
                   _ _)).
  - reflexivity.
  - vm_compute. reflexivity.
Defined.

(** ** The settings component *)

(** X15: after [changeTheme] with "dark" or "light", the component's
    selection is that theme and the body carries the class of that theme and
    not the class of the other one, whatever it carried before; the classes
    that are not theme classes are kept.  Any other value changes neither
    the selection nor the body and is reported on the console. *)
Theorem changeTheme_exclusive (value other : string) (c : SettingsComponent.Component) :
  let c' := SettingsComponent.changeTheme value c in
  let has token := classList_contains token (SettingsComponent.body_classList c') in
  (value = "dark" ->
   SettingsComponent.themeSelection c' = "dark"
   /\ has "dark-theme" = true /\ has "light-theme" = false)
  /\ (value = "light" ->
      SettingsComponent.themeSelection c' = "light"
      /\ has "light-theme" = true /\ has "dark-theme" = false)
  /\ (other <> "dark-theme" -> other <> "light-theme" ->
      has other = classList_contains other (SettingsComponent.body_classList c))
  /\ (value <> "dark" -> value <> "light" ->
      SettingsComponent.themeSelection c' = SettingsComponent.themeSelection c
      /\ SettingsComponent.body_classList c' = SettingsComponent.body_classList c
      /\ SettingsComponent.console c'
         = SettingsComponent.console c ++ [("Некорректное значение темы:", value)]).
Proof.
  cbv zeta. unfold SettingsComponent.changeTheme.
  split; [| split; [| split]].
  - intros ->.
    cbn [SettingsComponent.themeSelection SettingsComponent.body_classList].
    change (String.eqb "dark" "light" || String.eqb "dark" "dark") with true.
    change (String.eqb "dark" "dark") with true.
    cbn [SettingsComponent.themeSelection SettingsComponent.body_classList].
    split; [reflexivity |].
    rewrite classList_contains_remove_other by discriminate.
    rewrite classList_contains_add, classList_contains_remove.
    split; reflexivity.
  - intros ->.
    change (String.eqb "light" "light" || String.eqb "light" "dark") with true.
    change (String.eqb "light" "dark") with false.
    cbn [SettingsComponent.themeSelection SettingsComponent.body_classList].
    split; [reflexivity |].
    rewrite classList_contains_remove_other by discriminate.
    rewrite classList_contains_add, classList_contains_remove.
    split; reflexivity.
  - intros Hdark Hlight.
    destruct (String.eqb value "light" || String.eqb value "dark");
      [| reflexivity].
    cbn [SettingsComponent.body_classList].
    destruct (String.eqb value "dark").
    + rewrite classList_contains_remove_other by exact Hlight.
      apply classList_contains_add_other. exact Hdark.
    + rewrite classList_contains_remove_other by exact Hdark.
      apply classList_contains_add_other. exact Hlight.
  - intros Hdark Hlight.
    apply String.eqb_neq in Hdark, Hlight. rewrite Hdark, Hlight.
    cbn [orb]. repeat split; reflexivity.
Qed.

Lemma changeTheme_exclusive_witness :
  classList_contains "dark-theme"
    (SettingsComponent.body_classList
       (SettingsComponent.changeTheme "light"
          {| SettingsComponent.themeSelection := "dark";
             SettingsComponent.body_classList := ["dark-theme"; "ready"];
             SettingsComponent.console := [] |})) = false
  /\ classList_contains "ready"
       (SettingsComponent.body_classList
          (SettingsComponent.changeTheme "light"
             {| SettingsComponent.themeSelection := "dark";
                SettingsComponent.body_classList := ["dark-theme"; "ready"];
                SettingsComponent.console := [] |})) = true
  /\ SettingsComponent.body_classList
       (SettingsComponent.changeTheme "blue"
          {| SettingsComponent.themeSelection := "dark";
             SettingsComponent.body_classList := ["dark-theme"; "ready"];
             SettingsComponent.console := [] |}) = ["dark-theme"; "ready"].
Proof.
  split; [| split].
  - apply (proj1 (proj2 (changeTheme_exclusive "light" "ready"
                           {| SettingsComponent.themeSelection := "dark";
                              SettingsComponent.body_classList := ["dark-theme"; "ready"];
                              SettingsComponent.console := [] |}))).
    reflexivity.
  - refine (eq_trans
              (proj1 (proj2 (proj2 (changeTheme_exclusive "light" "ready"
                     {| SettingsComponent.themeSelection := "dark";
                        SettingsComponent.body_classList := ["dark-theme"; "ready"];
                        SettingsComponent.console := [] |}))) _ _)
              _).
    + discriminate.
    + discriminate.
    + reflexivity.
  - apply (proj2 (proj2 (proj2 (changeTheme_exclusive "blue" "ready"
                           {| SettingsComponent.themeSelection := "dark";
                              SettingsComponent.body_classList := ["dark-theme"; "ready"];
                              SettingsComponent.console := [] |})))).
    + discriminate.
    + discriminate.
Defined.

(** ** Reloading while results are on screen *)

(** X16: [loadPrompts] replaces the loaded prompts and nothing else: the
    results of the last query stay on screen as they were, so a listed item
    may belong to a prompt that is no longer loaded, and clicking it still
    copies the content it was rendered with.  The next query is answered
    from the list the backend resolved with. *)
Theorem reload_keeps_screen {W : Type} (host : Host W) {rt : StringRuntime}
    (s : Sys W) (i : nat) (text : string) (p : Prompt) :
  nth_error (promptList_children (ui s)) i
  = Some {| textContent := text; onclick := Some p |} ->
  let s' := exec (loadPrompts host) s in
  visible_items (ui s') = visible_items (ui s)
  /\ filteredPrompts (ui s') = filteredPrompts (ui s)
  /\ settings (ui s') = settings (ui s)
  /\ promptList_click host i s' = li_click host p s'
  /\ (forall loaded w' query,
        backend host (get_prompts (promptFilePath (settings (ui s)))) (world s)
        = (Resolved loaded, w') ->
        query_results query s'
        = List.filter (matches_searchTerm (toLowerCase query)) loaded).
Proof.
  intros Hitem. cbv zeta.
  destruct (loadPrompts_frame host s) as (Hui & _).
  cbv zeta in Hui.
  assert (Hchildren : promptList_children (ui (exec (loadPrompts host) s))
                      = promptList_children (ui s)) by (rewrite Hui; reflexivity).
  split; [rewrite Hui; reflexivity |].
  split; [rewrite Hui; reflexivity |].
  split; [rewrite Hui; reflexivity |].
  split.
  - apply (promptList_click_selected host i p text). rewrite Hchildren. exact Hitem.
  - intros loaded w' query Hanswer. rewrite query_results_filter.
    unfold exec. rewrite loadPrompts_run. cbv zeta. rewrite Hanswer. reflexivity.
Qed.

Lemma reload_keeps_screen_witness :
  visible_items
    (ui (exec (loadPrompts (Examples.rejecting IoError))
           (exec (type_query (rt:=ascii_runtime) "hel")
              (Examples.start [Examples.Greeting ["name"]] tt))))
  = visible_items
      (ui (exec (type_query (rt:=ascii_runtime) "hel")
             (Examples.start [Examples.Greeting ["name"]] tt)))
  /\ query_results (rt:=ascii_runtime) "report"
       (exec (loadPrompts
                (Samples.serving Samples.ctrl_space [Examples.BugReport []] "picked.json"))
          (exec (type_query (rt:=ascii_runtime) "hel")
             (Examples.start [Examples.Greeting ["name"]] tt)))
     = [Examples.BugReport []].
Proof.
  split.
  - refine (proj1 (reload_keeps_screen (Examples.rejecting IoError) (rt:=ascii_runtime)
                     (exec (type_query (rt:=ascii_runtime) "hel")
                        (Examples.start [Examples.Greeting ["name"]] tt))
                     0 "Greeting" (Examples.Greeting ["name"]) _)).
    reflexivity.
  - refine (eq_trans
              (proj2 (proj2 (proj2 (proj2
                 (reload_keeps_screen
                    (Samples.serving Samples.ctrl_space [Examples.BugReport []] "picked.json")
                    (rt:=ascii_runtime)
                    (exec (type_query (rt:=ascii_runtime) "hel")
                       (Examples.start [Examples.Greeting ["name"]] tt))
                    0 "Greeting" (Examples.Greeting ["name"]) _))))
                 [Examples.BugReport []] tt "report" _)
              _).
    + reflexivity.
    + reflexivity.
    + reflexivity.
Defined.
